(** * GRCnewsAssistant: a shallow embedding of the article pipeline

    The Python script [GRCnewsAssistant.py] is embedded function by
    function.  Python values are an inductive type [pyval] (the shapes that
    [json.loads] and the dict literals of the script produce), the effects of
    the script (CSV files, temporary files, the log, exceptions and
    [sys.exit]) live in a small state-and-exception monad [M], and every
    call that leaves the script (HTTP, newspaper, subprocess, tempfile,
    json) is answered by an explicit record of answers handed to the
    function.

    Modelling conventions:
    - a CSV file is the sequence of rows handed to [csv.writer.writerow];
      a row is the list of Python values of that call;
    - a Python [str] is held as the bytes of its code points in UTF-8, a
      lone surrogate (which [json.loads] can produce) included;
    - opening a file succeeds, and a row is written unless one of its
      cells cannot be encoded for the file (a lone surrogate in a [str]):
      then [writerow] raises UnicodeEncodeError and none of the row is
      written; a destination that exists holds complete rows;
    - the temporary file is written in UTF-8 (the encoding of the locale),
      so that this write, too, raises on a lone surrogate and on nothing
      else;
    - [str()] on an arbitrary value is the section variable [py_str]. *)

From stdpp Require Import gmap strings list fin_maps pretty.
From Stdlib Require Import ZArith Ascii.

Set Warnings "-register-all".

(** ** Python values *)

Inductive pyval : Type :=
| PNone
| PBool (b : bool)
| PInt (n : Z)
| PFloat (bits : Z)                    (* IEEE-754 binary64 bit pattern *)
| PStr (s : string)
| PList (xs : list pyval)
| PDict (kvs : list (string * pyval)). (* insertion order, keys distinct *)

(** A Python dict built by the script itself ([Article], extracted content)
    is a finite map from keys to values. *)
Abbreviation pydict := (gmap string pyval).

(** [bool(v)]: None, False, 0, 0.0, -0.0, the empty string, list and dict are falsy. *)
Definition truthy (v : pyval) : bool :=
  match v with
  | PNone => false
  | PBool b => b
  | PInt n => negb (n =? 0)%Z
  | PFloat bits => negb (Z.land bits 0x7FFFFFFFFFFFFFFF =? 0)%Z
  | PStr s => match s with EmptyString => false | String _ _ => true end
  | PList xs => match xs with [] => false | _ :: _ => true end
  | PDict kvs => match kvs with [] => false | _ :: _ => true end
  end.

(** [bool(d)] for a dict of the script: non-empty. *)
Definition dict_truthy (d : pydict) : bool := negb (bool_decide (d = ∅)).

(** [d.get(k)]: the value, or None. *)
Definition dict_get (d : pydict) (k : string) : pyval := default PNone (d !! k).

(** ** Exceptions, outcomes and the monad of the script *)

Inductive exn : Type :=
| KeyError (k : string)
| TypeError
| AttributeError
| ValueError
| FileNotFoundError
| CalledProcessError
| TimeoutExpired
| JSONDecodeError
| OtherException (name : string).

(** What a call does: return, raise an [Exception], or leave the process
    through [sys.exit] ([SystemExit] is not an [Exception]: no handler of
    the script catches it). *)
Inductive outcome (A : Type) : Type :=
| Ret (a : A)
| Raise (e : exn)
| Exit (code : Z).
Arguments Ret {A} a.
Arguments Raise {A} e.
Arguments Exit {A} code.

Abbreviation row := (list pyval).

(** The calls to [logger.error]: the format string is the constructor, the
    interpolated values are the arguments. *)
Inductive log_event : Type :=
| Log_api_request_failed (results : pyval)
| Log_error_fetching_news (e : exn)
| Log_error_writing (filename : string) (e : exn)
| Log_error_writing_urls (filename : string) (e : exn)
| Log_failed_to_process (url : pyval) (e : exn)
| Log_error_in_fabric (e : exn)
| Log_error_updating (e : exn)
| Log_xclip_not_found
| Log_unsupported_os (system : string).

Record state : Type := mkState {
  files : gmap string (list row);   (* CSV files, by name *)
  temps : gset string;              (* temporary files that exist *)
  logs : list log_event             (* oldest first *)
}.

Definition M (A : Type) : Type := state → outcome A * state.

Definition ret {A} (a : A) : M A := λ st, (Ret a, st).
Definition raise {A} (e : exn) : M A := λ st, (Raise e, st).
Definition sys_exit {A} (code : Z) : M A := λ st, (Exit code, st).

Definition bind {A B} (m : M A) (k : A → M B) : M B :=
  λ st, match m st with
        | (Ret a, st') => k a st'
        | (Raise e, st') => (Raise e, st')
        | (Exit c, st') => (Exit c, st')
        end.

#[global] Instance M_ret : MRet M := @ret.
#[global] Instance M_bind : MBind M := λ A B k m, bind m k.

(** Computations without effects that may raise are in [exn + A]. *)
#[global] Instance exn_ret : MRet (sum exn) := λ A a, inr a.
#[global] Instance exn_bind : MBind (sum exn) :=
  λ A B k r, match r with inl e => inl e | inr a => k a end.
#[global] Instance exn_fmap : FMap (sum exn) :=
  λ A B f r, match r with inl e => inl e | inr a => inr (f a) end.

(** [try: m except Exception as e: h e] *)
Definition try_except {A} (m : M A) (h : exn → M A) : M A :=
  λ st, match m st with
        | (Raise e, st') => h e st'
        | r => r
        end.

(** [for x in xs: body x] *)
Fixpoint for_each {A} (xs : list A) (body : A → M unit) : M unit :=
  match xs with
  | [] => ret tt
  | x :: xs' => body x;; for_each xs' body
  end.

(** Lifting a pure computation that may raise. *)
Definition lift {A} (r : exn + A) : M A :=
  match r with inl e => raise e | inr a => ret a end.

Definition log_error (ev : log_event) : M unit :=
  λ st, (Ret tt, mkState (files st) (temps st) (logs st ++ [ev])).

(** ** Operations on values *)

Fixpoint assoc (kvs : list (string * pyval)) (k : string) : option pyval :=
  match kvs with
  | [] => None
  | (k', v) :: rest => if String.eqb k' k then Some v else assoc rest k
  end.

(** [d[k]] on a dict of the script. *)
Definition dict_item (d : pydict) (k : string) : exn + pyval :=
  match d !! k with Some v => inr v | None => inl (KeyError k) end.

(** [v[k]] with a string key: only a dict accepts it. *)
Definition py_getitem (v : pyval) (k : string) : exn + pyval :=
  match v with
  | PDict kvs => match assoc kvs k with Some x => inr x | None => inl (KeyError k) end
  | _ => inl TypeError
  end.

(** [v.get(k, dflt)]: only a dict has the method. *)
Definition py_get (v : pyval) (k : string) (dflt : pyval) : exn + pyval :=
  match v with
  | PDict kvs => inr (default dflt (assoc kvs k))
  | _ => inl AttributeError
  end.

(** A byte that continues the code point begun before it. *)
Definition is_continuation (c : ascii) : bool :=
  let n := N_of_ascii c in ((128 <=? n) && (n <=? 191))%N.

(** The characters (code points) of a string, each as a string. *)
Fixpoint chars (s : string) : list string :=
  match s with
  | EmptyString => []
  | String c s' =>
      match chars s' with
      | String d g :: gs =>
          if is_continuation d then String c (String d g) :: gs
          else String c EmptyString :: String d g :: gs
      | gs => String c EmptyString :: gs
      end
  end.

(** [iter(v)]: a list gives its items, a dict its keys, a string its
    characters. *)
Definition py_iter (v : pyval) : exn + list pyval :=
  match v with
  | PList xs => inr xs
  | PDict kvs => inr (PStr <$> kvs.*1)
  | PStr s => inr (PStr <$> chars s)
  | _ => inl TypeError
  end.

Fixpoint all_strings (xs : list pyval) : option (list string) :=
  match xs with
  | [] => Some []
  | PStr s :: rest => cons s <$> all_strings rest
  | _ :: _ => None
  end.

Fixpoint join (sep : string) (ss : list string) : string :=
  match ss with
  | [] => EmptyString
  | [s] => s
  | s :: rest => s +:+ sep +:+ join sep rest
  end.

(** [sep.join(v)]: [v] must be iterable and every item a string. *)
Definition py_join (sep : string) (v : pyval) : exn + string :=
  match py_iter v with
  | inl e => inl e
  | inr xs => match all_strings xs with
              | Some ss => inr (join sep ss)
              | None => inl TypeError
              end
  end.

(** ** ArticleStore: [save_to_csv] and [save_urls] *)

Definition file_exists (filename : string) : M bool :=
  λ st, (Ret (bool_decide (is_Some (files st !! filename))), st).

(** [open(filename, 'w')]: the file exists and is empty. *)
Definition open_w (filename : string) : M unit :=
  λ st, (Ret tt, mkState (<[filename := []]> (files st)) (temps st) (logs st)).

(** [open(filename, 'a')]: the file exists, its rows are kept. *)
Definition open_a (filename : string) : M unit :=
  λ st, (Ret tt, mkState (<[filename := default [] (files st !! filename)]> (files st))
                         (temps st) (logs st)).

(** A surrogate (U+D800 to U+DFFF) is the byte 237 followed by a byte from
    160 to 191. *)
Fixpoint has_surrogate (s : string) : bool :=
  match s with
  | EmptyString => false
  | String c rest =>
      match rest with
      | String d _ =>
          ((N_of_ascii c =? 237) && (160 <=? N_of_ascii d) && (N_of_ascii d <=? 191))%N
      | EmptyString => false
      end
      || has_surrogate rest
  end.

(** The text the writer makes of a cell can be encoded as UTF-8: a [str]
    is written as it is; None, numbers and booleans give ASCII text, and
    [str()] of a list or dict escapes the surrogates of its strings. *)
Definition encodable_cell (v : pyval) : bool :=
  match v with
  | PStr s => negb (has_surrogate s)
  | _ => true
  end.

Definition UnicodeEncodeError : exn := OtherException "UnicodeEncodeError".

(** [writer.writerow(r)] on a writer of [filename], the file opened with
    [encoding='utf-8']. *)
Definition writerow (filename : string) (r : row) : M unit :=
  λ st, if forallb encodable_cell r
        then (Ret tt, mkState (<[filename := default [] (files st !! filename) ++ [r]]>
                                 (files st))
                              (temps st) (logs st))
        else (Raise UnicodeEncodeError, st).

Definition required_keys : list string :=
  ["date"; "keyword"; "headline"; "description"; "url"].

(** [article and all(article.get(key) for key in [...])] *)
Definition is_valid (article : pydict) : bool :=
  dict_truthy article && forallb (λ key, truthy (dict_get article key)) required_keys.

Definition article_header : row :=
  [PStr "date"; PStr "keyword"; PStr "title"; PStr "description"; PStr "url"].

(** The list [[article["date"], ..., article["url"]]]. *)
Definition article_cells (article : pydict) : exn + row :=
  d ← dict_item article "date";
  k ← dict_item article "keyword";
  h ← dict_item article "headline";
  s ← dict_item article "description";
  u ← dict_item article "url";
  inr [d; k; h; s; u].

Definition save_to_csv (articles : list pydict) (filename : string) : M unit :=
  try_except
    (ex ← file_exists filename;
     ((if ex : bool then ret tt
       else open_w filename;; writerow filename article_header) : M unit);;
     open_a filename;;
     for_each articles (λ article,
       if is_valid article
       then r ← lift (article_cells article); writerow filename r
       else ret tt))
    (λ e, log_error (Log_error_writing filename e)).

Definition save_urls (articles : list pydict) (filename : string) : M unit :=
  try_except
    (open_w filename;;
     for_each articles (λ article,
       if dict_truthy article && truthy (dict_get article "url")
       then u ← lift (dict_item article "url"); writerow filename [u]
       else ret tt))
    (λ e, log_error (Log_error_writing_urls filename e)).

(** ** NewsSearchClient: [search_news] *)

(** [for x in xs: acc.append(body x)] *)
Fixpoint map_each {A B} (xs : list A) (body : A → M B) : M (list B) :=
  match xs with
  | [] => ret []
  | x :: xs' => y ← body x; ys ← map_each xs' body; ret (y :: ys)
  end.

(** [v == s] for a string constant [s]. *)
Definition py_eq_str (v : pyval) (s : string) : bool :=
  match v with PStr s' => String.eqb s' s | _ => false end.

Definition search_url (api_key keyword category language : string) : string :=
  "https://newsdata.io/api/1/news?apikey=" +:+ api_key +:+ "&q=" +:+ keyword
  +:+ "&language=" +:+ language +:+ "&category=" +:+ category.

(** The dict literal built for one result item; the subscripts are
    evaluated in the order of the literal. *)
Definition article_of_item (today keyword : string) (item : pyval) : exn + pydict :=
  t ← py_getitem item "title";
  d ← py_getitem item "description";
  l ← py_getitem item "link";
  inr (list_to_map [("date", PStr today); ("keyword", PStr keyword);
                    ("headline", t); ("description", d); ("url", l)]).

(** [today] is [datetime.date.today().strftime("%Y-%m-%d")]; [http url] is
    what [requests.get(url)] followed by [response.json()] gives. *)
Definition search_news (today : string) (http : string → exn + pyval)
    (keyword api_key category language : string) : M (list pydict) :=
  try_except
    (data ← lift (http (search_url api_key keyword category language));
     status ← lift (py_getitem data "status");
     if py_eq_str status "success"
     then results ← lift (py_getitem data "results");
          items ← lift (py_iter results);
          map_each items (λ article, lift (article_of_item today keyword article))
     else r ← lift (py_get data "results" (PStr "No error message"));
          log_error (Log_api_request_failed r);;
          ret [])
    (λ e, log_error (Log_error_fetching_news e);; ret []).

(** ** ContentExtractor: [extract_article_content] *)

(** [datetime.datetime], its fields within the ranges the class enforces
    (year up to 9999, month up to 12, ...); [utcoffset] is the offset of an
    aware value in whole minutes, under a day in size. *)
Record datetime : Type := mkDatetime {
  year : N; month : N; day : N;
  hour : N; minute : N; second : N; microsecond : N;
  utcoffset : option Z
}.

Definition digit (n : N) : ascii := ascii_of_N (48 + n mod 10).

Definition pad2 (n : N) : string :=
  String (digit (n / 10)) (String (digit n) EmptyString).
Definition pad4 (n : N) : string :=
  String (digit (n / 1000)) (String (digit (n / 100)) (pad2 n)).
Definition pad6 (n : N) : string :=
  String (digit (n / 100000)) (String (digit (n / 10000)) (pad4 n)).

Definition format_offset (off : Z) : string :=
  let m := Z.to_N (Z.abs off) in
  (if (off <? 0)%Z then "-" else "+") +:+ pad2 (m / 60) +:+ ":" +:+ pad2 (m mod 60).

(** [d.isoformat()] *)
Definition isoformat (d : datetime) : string :=
  pad4 (year d) +:+ "-" +:+ pad2 (month d) +:+ "-" +:+ pad2 (day d) +:+ "T"
  +:+ pad2 (hour d) +:+ ":" +:+ pad2 (minute d) +:+ ":" +:+ pad2 (second d)
  +:+ (if (microsecond d =? 0)%N then EmptyString else "." +:+ pad6 (microsecond d))
  +:+ match utcoffset d with None => EmptyString | Some off => format_offset off end.

(** The extended ISO 8601 date-time format
    [YYYY-MM-DDThh:mm:ss[.ffffff][+hh:mm]], as a recogniser. *)
Definition is_digit (c : ascii) : bool :=
  let n := N_of_ascii c in ((48 <=? n) && (n <=? 57))%N.

Fixpoint digits (k : nat) (s : string) : option string :=
  match k with
  | O => Some s
  | S k' => match s with
            | String c s' => if is_digit c then digits k' s' else None
            | EmptyString => None
            end
  end.

Definition expect (c : ascii) (s : string) : option string :=
  match s with
  | String c' s' => if Ascii.eqb c c' then Some s' else None
  | EmptyString => None
  end.

(** Run the recognisers one after the other on what the previous left. *)
Fixpoint in_turn (ps : list (string → option string)) (s : string) : option string :=
  match ps with
  | [] => Some s
  | p :: ps' => match p s with Some rest => in_turn ps' rest | None => None end
  end.

Definition iso_fraction (s : string) : option string :=
  match s with
  | String "." s' => digits 6 s'
  | _ => Some s
  end.

Definition iso_offset (s : string) : bool :=
  match s with
  | EmptyString => true
  | String c s' =>
      (Ascii.eqb c "+" || Ascii.eqb c "-")
      && match in_turn [digits 2; expect ":"; digits 2] s' with
         | Some EmptyString => true
         | _ => false
         end
  end.

Definition is_iso8601 (s : string) : bool :=
  match in_turn [digits 4; expect "-"; digits 2; expect "-"; digits 2;
                 expect "T"; digits 2; expect ":"; digits 2;
                 expect ":"; digits 2; iso_fraction] s with
  | Some rest => iso_offset rest
  | None => false
  end.

(** What the newspaper library answers during one call: whether each of its
    four calls raises, and the attributes of the parsed article. *)
Record newspaper : Type := mkNewspaper {
  np_construct : option exn;      (* Article(url, fetch_images=False) *)
  np_download : option exn;       (* article.download() *)
  np_parse : option exn;          (* article.parse() *)
  np_nlp : option exn;            (* article.nlp() *)
  np_title : pyval;
  np_keywords : pyval;
  np_authors : pyval;
  np_summary : pyval;
  np_text : pyval;
  np_publish_date : option datetime
}.

Definition call (answer : option exn) : M unit :=
  match answer with Some e => raise e | None => ret tt end.

(** [v or d] *)
Definition py_or (v d : pyval) : pyval := if truthy v then v else d.

Definition extract_article_content (np : newspaper) (url : pyval) : M (option pydict) :=
  call (np_construct np);;
  try_except
    (call (np_download np);;
     call (np_parse np);;
     call (np_nlp np);;
     ret (Some (list_to_map
       [("title", py_or (np_title np) (PStr "Not Found"));
        ("keywords", if truthy (np_keywords np) then np_keywords np else PList []);
        ("authors", if truthy (np_authors np) then np_authors np
                    else PList [PStr "Not Found"]);
        ("summary", py_or (np_summary np) (PStr "Not Found"));
        ("text", py_or (np_text np) (PStr "Not Found"));
        ("publish_date", match np_publish_date np with
                         | Some d => PStr (isoformat d)
                         | None => PStr "Not Found"
                         end);
        ("url", url)])))
    (λ e, log_error (Log_failed_to_process url e);; ret None).

(** ** AnalysisClient: [get_clipboard_command] and [analyze_with_fabric] *)

(** What the operating system answers during one call of
    [analyze_with_fabric]. *)
Record fabric_env : Type := mkFabricEnv {
  fe_system : string;                  (* platform.system() *)
  fe_tmp_txt : string;                 (* name of the '.txt' NamedTemporaryFile *)
  fe_tmp_md : string;                  (* name of the '.md' NamedTemporaryFile *)
  fe_run : list string → option exn;   (* subprocess.run(argv, ...) *)
  fe_shell : string → option exn;      (* subprocess.run(cmd, shell=True, timeout=15, check=True) *)
  fe_json : exn + pyval                (* json.loads of what fabric left in the output file *)
}.

Definition lower_ascii (c : ascii) : ascii :=
  let n := N_of_ascii c in
  if ((65 <=? n) && (n <=? 90))%N then ascii_of_N (n + 32) else c.

Fixpoint lower (s : string) : string :=
  match s with
  | EmptyString => EmptyString
  | String c s' => String (lower_ascii c) (lower s')
  end.

Definition get_clipboard_command (env : fabric_env) : M (list string) :=
  let system := lower (fe_system env) in
  if String.eqb system "darwin" then ret ["pbpaste"]
  else if String.eqb system "linux" then
    match fe_run env ["xclip"; "-version"] with
    | None => ret ["xclip"; "-selection"; "clipboard"; "-o"]
    | Some FileNotFoundError => log_error Log_xclip_not_found;; sys_exit 1
    | Some e => raise e
    end
  else if String.eqb system "windows" then
    ret ["powershell.exe"; "-command"; "Get-Clipboard"]
  else log_error (Log_unsupported_os system);; sys_exit 1.

(** [NamedTemporaryFile(delete=False)]: the file exists from here on. *)
Definition named_temporary_file (name : string) : M unit :=
  λ st, (Ret tt, mkState (files st) ({[name]} ∪ temps st) (logs st)).

(** [temp_file.write(text)]: the text is encoded for the file (UTF-8), which
    raises on a lone surrogate. *)
Definition temp_file_write (text : string) : M unit :=
  call (if has_surrogate text then Some UnicodeEncodeError else None).

(** [open(name, 'r')] on a temporary file. *)
Definition open_r (name : string) : M unit :=
  λ st, if bool_decide (name ∈ temps st) then (Ret tt, st)
        else (Raise FileNotFoundError, st).

(** [os.unlink(name)] *)
Definition unlink (name : string) : M unit :=
  λ st, if bool_decide (name ∈ temps st)
        then (Ret tt, mkState (files st) (temps st ∖ {[name]}) (logs st))
        else (Raise FileNotFoundError, st).

Definition nl : string := String (ascii_of_N 10) EmptyString.
Definition dquote : string := String (ascii_of_N 34) EmptyString.

Section WithStr.

(** Python's [str()]. *)
Variable py_str : pyval → string.

(** The f-string written to the temporary file; the subscripts and joins
    are evaluated from left to right. *)
Definition format_content (content : pydict) : exn + string :=
  t ← dict_item content "title";
  a ← dict_item content "authors";
  aj ← py_join ", " a;
  k ← dict_item content "keywords";
  kj ← py_join ", " k;
  s ← dict_item content "summary";
  u ← dict_item content "url";
  inr ("Title: " +:+ py_str t +:+ nl +:+
       "Authors: " +:+ aj +:+ nl +:+
       "Keywords: " +:+ kj +:+ nl +:+
       "Summary: " +:+ py_str s +:+ nl +:+
       "URL: " +:+ py_str u +:+ nl).

(** The block under [try:]. *)
Definition analyze_body (env : fabric_env) (content : pydict) : M pyval :=
  named_temporary_file (fe_tmp_txt env);;
  formatted_content ← lift (format_content content);
  temp_file_write formatted_content;;
  open_r (fe_tmp_txt env);;
  call (fe_run env [if String.eqb (fe_system env) "Darwin" then "pbcopy" else "clip"]);;
  named_temporary_file (fe_tmp_md env);;
  clipboard_cmd ← get_clipboard_command env;
  call (fe_shell env (join " " clipboard_cmd +:+ " | fabric -p label_and_rate -o "
                      +:+ dquote +:+ fe_tmp_md env +:+ dquote));;
  open_r (fe_tmp_md env);;
  fabric_data ← lift (fe_json env);
  unlink (fe_tmp_txt env);;
  unlink (fe_tmp_md env);;
  ret fabric_data.

Definition analyze_with_fabric (env : fabric_env) (content : pydict) : M pyval :=
  try_except (analyze_body env content)
             (λ e, log_error (Log_error_in_fabric e);; ret PNone).

(** ** RatedDatasetBuilder: [create_rated_csv] *)

Definition rated_filename : string := "grcdata_rated.csv".

Definition rated_header : row :=
  [PStr "date"; PStr "keyword"; PStr "title"; PStr "description"; PStr "url";
   PStr "one-sentence-summary"; PStr "labels"; PStr "rating";
   PStr "rating-explanation"; PStr "quality-score"; PStr "quality-score-explanation"].

(** The row written when the analysis is truthy: the eleven expressions of
    the list literal, evaluated from left to right. *)
Definition analysis_cells (analysis : pyval) : exn + row :=
  s ← py_get analysis "one-sentence-summary" (PStr EmptyString);
  l ← py_get analysis "labels" (PStr EmptyString);
  r ← py_get analysis "rating" (PStr EmptyString);
  re ← py_get analysis "rating-explanation" (PList []);
  rej ← py_join "; " re;
  q ← py_get analysis "quality-score" (PStr EmptyString);
  qe ← py_get analysis "quality-score-explanation" (PList []);
  qej ← py_join "; " qe;
  inr [s; l; r; PStr rej; PStr (py_str q); PStr qej].

Definition rated_cells (article : pydict) (analysis : pyval) : exn + row :=
  cells ← article_cells article;
  extra ← analysis_cells analysis;
  inr (cells ++ extra).

(** The row written when the analysis is falsy. *)
Definition unrated_cells (article : pydict) : exn + row :=
  cells ← article_cells article;
  inr (cells ++ [PStr EmptyString; PStr EmptyString; PStr EmptyString; PStr EmptyString; PStr EmptyString; PStr EmptyString]).

(** The body of the loop over [zip(articles, analysis_results)]. *)
Definition rated_step (pair : pydict * pyval) : M unit :=
  let '(article, analysis) := pair in
  if dict_truthy article && truthy (dict_get article "url")
  then (if truthy analysis
        then r ← lift (rated_cells article analysis); writerow rated_filename r
        else r ← lift (unrated_cells article); writerow rated_filename r)
  else ret tt.

Definition create_rated_csv (articles : list pydict) (analysis_results : list pyval) : M unit :=
  try_except
    (open_w rated_filename;;
     writerow rated_filename rated_header;;
     for_each (zip articles analysis_results) rated_step)
    (λ e, log_error (Log_error_updating e)).

(** ** The extraction and analysis loop of [main] *)

(** The body of the loop: the value appended to [analysis_results]. *)
Definition analyse_article (np : newspaper) (env : fabric_env) (article : pydict) : M pyval :=
  url ← lift (dict_item article "url");
  content ← extract_article_content np url;
  match content with
  | Some c => if dict_truthy c then analyze_with_fabric env c else ret PNone
  | None => ret PNone
  end.

(** [world i] is what newspaper and the operating system answer during
    iteration [i]. *)
Fixpoint analysis_loop (world : nat → newspaper * fabric_env) (i : nat)
    (all_articles : list pydict) (analysis_results : list pyval) : M (list pyval) :=
  match all_articles with
  | [] => ret analysis_results
  | article :: rest =>
      a ← analyse_article (world i).1 (world i).2 article;
      analysis_loop world (S i) rest (analysis_results ++ [a])
  end.

(** Lines 296 to 312 of [main]. *)
Definition process_articles (world : nat → newspaper * fabric_env)
    (all_articles : list pydict) : M unit :=
  analysis_results ← analysis_loop world 0 all_articles [];
  create_rated_csv all_articles analysis_results.

End WithStr.

(** * Specification-level definitions and sample data *)

Definition has_url (article : pydict) : bool :=
  dict_truthy article && truthy (dict_get article "url").

(** The five cells of an article, read with [get]. *)
Definition cells_of (article : pydict) : row :=
  [dict_get article "date"; dict_get article "keyword"; dict_get article "headline";
   dict_get article "description"; dict_get article "url"].

(** The single cell of a row of the URL list. *)
Definition url_row (article : pydict) : row := [dict_get article "url"].

(** What the destination holds before the rows of a call are appended. *)
Definition prior_rows (st : state) (filename : string) : list row :=
  match files st !! filename with
  | Some old => old
  | None => [article_header]
  end.

Section RatedRows.

Variable py_str : pyval → string.

(** What one pair contributes: a row, nothing, or an exception. *)
Definition rated_row (pair : pydict * pyval) : exn + option row :=
  if has_url pair.1
  then r ← (if truthy pair.2
            then rated_cells py_str pair.1 pair.2
            else unrated_cells pair.1);
       if forallb encodable_cell r then inr (Some r) else inl UnicodeEncodeError
  else inr None.

(** The rows written until the first exception, and that exception. *)
Fixpoint rated_rows (pairs : list (pydict * pyval)) : list row * option exn :=
  match pairs with
  | [] => ([], None)
  | p :: ps =>
      match rated_row p with
      | inl e => ([], Some e)
      | inr None => rated_rows ps
      | inr (Some r) => (r :: (rated_rows ps).1, (rated_rows ps).2)
      end
  end.

End RatedRows.

(** An article that carries the five keys, as [search_news] builds it. *)
Definition has_keys (article : pydict) : bool :=
  forallb (λ key, bool_decide (is_Some (article !! key))) required_keys.

Definition joinable (v : pyval) : bool :=
  match py_join "; " v with inr _ => true | inl _ => false end.

(** An analysis on which the builder raises nothing: a falsy value, or a
    dict whose two explanation entries, when present, are sequences of
    strings. *)
Definition analysis_ok (analysis : pyval) : bool :=
  negb (truthy analysis)
  || match analysis with
     | PDict kvs =>
         joinable (default (PList []) (assoc kvs "rating-explanation"))
         && joinable (default (PList []) (assoc kvs "quality-score-explanation"))
     | _ => false
     end.

(** The rated records: the rows of the rated dataset below its header,
    after a run of the builder from the empty state. *)
Definition build (py_str : pyval → string) (articles : list pydict)
    (analyses : list pyval) : list row :=
  tail (default [] (files (create_rated_csv py_str articles analyses
                             (mkState ∅ ∅ [])).2 !! rated_filename)).

Definition empty_cells : row :=
  [PStr EmptyString; PStr EmptyString; PStr EmptyString;
   PStr EmptyString; PStr EmptyString; PStr EmptyString].

(** What the builder logs, run from the empty state. *)
Definition builder_log (py_str : pyval → string) (articles : list pydict)
    (analyses : list pyval) : list log_event :=
  logs (create_rated_csv py_str articles analyses (mkState ∅ ∅ [])).2.

(** Of the rows handed to a writer one after the other, those that are
    written: the rows before the first with a cell that cannot be
    encoded. *)
Fixpoint writable (rows : list row) : list row :=
  match rows with
  | [] => []
  | r :: rest => if forallb encodable_cell r then r :: writable rest else []
  end.

Definition all_writable (rows : list row) : bool :=
  forallb (forallb encodable_cell) rows.

(** The entry that a writer logs when a row cannot be written. *)
Definition write_log (event : exn → log_event) (rows : list row) : list log_event :=
  if all_writable rows then [] else [event UnicodeEncodeError].

(** The five cells of the article can be encoded. *)
Definition article_writable (article : pydict) : bool :=
  forallb encodable_cell (cells_of article).

(** The six cells made from the analysis can be encoded. *)
Definition analysis_writable (py_str : pyval → string) (analysis : pyval) : bool :=
  negb (truthy analysis)
  || match analysis_cells py_str analysis with
     | inr extra => forallb encodable_cell extra
     | inl _ => false
     end.

(** ** Sample data *)

(** An instance of [str()] for the examples: exact on None, booleans,
    integers and strings, which is all the examples apply it to. *)
Definition demo_str (v : pyval) : string :=
  match v with
  | PNone => "None"
  | PBool true => "True"
  | PBool false => "False"
  | PInt n => pretty n
  | PStr s => s
  | _ => "..."
  end.

Definition mk_article (headline description url : pyval) : pydict :=
  list_to_map [("date", PStr "2024-05-01"); ("keyword", PStr "ransomware");
               ("headline", headline); ("description", description); ("url", url)].

Definition article_ok : pydict := mk_article (PStr "X") (PStr "Y") (PStr "http://u").
Definition article_no_description : pydict := mk_article (PStr "X") PNone (PStr "http://u").
Definition article_no_url : pydict := mk_article (PStr "X") (PStr "Y") PNone.

Definition analysis_sample : pyval :=
  PDict [("one-sentence-summary", PStr "S"); ("labels", PStr "Security");
         ("rating", PStr "A Tier");
         ("rating-explanation", PList [PStr "a"; PStr "b"]);
         ("quality-score", PInt 80);
         ("quality-score-explanation", PList [PStr "c"])].

Definition st_empty : state := mkState ∅ ∅ [].

(** The string of the single code point U+D800, as
    [json.loads] makes it of a backslash, u and d800 between quotes. *)
Definition lone_surrogate : string :=
  String (ascii_of_N 237) (String (ascii_of_N 160) (String (ascii_of_N 128) EmptyString)).

Definition article_unencodable : pydict :=
  mk_article (PStr lone_surrogate) (PStr "Y") (PStr "http://s").

(** The first exception of download, parse and nlp, if any. *)
Definition first_failure (np : newspaper) : option exn :=
  match np_download np with
  | Some e => Some e
  | None => match np_parse np with
            | Some e => Some e
            | None => np_nlp np
            end
  end.

(** The dict returned when nothing raises. *)
Definition extracted (np : newspaper) (url : pyval) : pydict :=
  list_to_map
    [("title", py_or (np_title np) (PStr "Not Found"));
     ("keywords", if truthy (np_keywords np) then np_keywords np else PList []);
     ("authors", if truthy (np_authors np) then np_authors np
                 else PList [PStr "Not Found"]);
     ("summary", py_or (np_summary np) (PStr "Not Found"));
     ("text", py_or (np_text np) (PStr "Not Found"));
     ("publish_date", match np_publish_date np with
                      | Some d => PStr (isoformat d)
                      | None => PStr "Not Found"
                      end);
     ("url", url)].

(** A page on which the parse yields nothing at all. *)
Definition np_nothing : newspaper :=
  mkNewspaper None None None None
    (PStr EmptyString) (PList []) (PList []) (PStr EmptyString) (PStr EmptyString) None.

Definition np_sample : newspaper :=
  mkNewspaper None None None None
    (PStr "Title") (PList [PStr "k1"]) (PList []) (PStr EmptyString) (PStr "Body")
    (Some (mkDatetime 2024 5 1 9 3 7 0 None)).

(** What newspaper answers for a URL it cannot parse: the constructor
    splits the URL with [urlparse], which raises ValueError ("Invalid IPv6
    URL") on an unmatched bracket. *)
Definition np_unparsable : newspaper :=
  mkNewspaper (Some ValueError) None None None PNone PNone PNone PNone PNone None.

(** What newspaper answers when the page cannot be downloaded. *)
Definition np_unreachable : newspaper :=
  mkNewspaper None (Some (OtherException "ArticleException")) None None
    PNone PNone PNone PNone PNone None.

(** A result item that carries the three keys. *)
Definition item_ok (item : pyval) : bool :=
  match item with
  | PDict kvs => bool_decide (is_Some (assoc kvs "title"))
                 && bool_decide (is_Some (assoc kvs "description"))
                 && bool_decide (is_Some (assoc kvs "link"))
  | _ => false
  end.

Definition item_field (item : pyval) (k : string) : pyval :=
  match item with
  | PDict kvs => default PNone (assoc kvs k)
  | _ => PNone
  end.

(** The article built from an item. *)
Definition article_from (today keyword : string) (item : pyval) : pydict :=
  list_to_map [("date", PStr today); ("keyword", PStr keyword);
               ("headline", item_field item "title");
               ("description", item_field item "description");
               ("url", item_field item "link")].

Definition item_full : pyval :=
  PDict [("title", PStr "X"); ("description", PStr "Y"); ("link", PStr "http://u")].
Definition item_null_description : pyval :=
  PDict [("title", PStr "T"); ("description", PNone); ("link", PStr "http://v")].
Definition item_without_description : pyval :=
  PDict [("title", PStr "T"); ("link", PStr "http://v")].

Definition response (items : list pyval) : pyval :=
  PDict [("status", PStr "success"); ("totalResults", PInt 2); ("results", PList items)].

Definition content_sample : pydict := extracted np_sample (PStr "http://u").

(** fabric answers with JSON in time. *)
Definition env_ok : fabric_env :=
  mkFabricEnv "Darwin" "/tmp/tmpa.txt" "/tmp/tmpb.md"
              (λ _, None) (λ _, None) (inr analysis_sample).

(** fabric does not answer within the 15 seconds. *)
Definition env_timeout : fabric_env :=
  mkFabricEnv "Darwin" "/tmp/tmpa.txt" "/tmp/tmpb.md"
              (λ _, None) (λ _, Some TimeoutExpired) (inl JSONDecodeError).

(** fabric answers in time, with text that is not JSON. *)
Definition env_not_json : fabric_env :=
  mkFabricEnv "Darwin" "/tmp/tmpa.txt" "/tmp/tmpb.md"
              (λ _, None) (λ _, None) (inl JSONDecodeError).

(** On Linux there is no [clip] command. *)
Definition env_linux : fabric_env :=
  mkFabricEnv "Linux" "/tmp/tmpa.txt" "/tmp/tmpb.md"
              (λ argv, match argv with
                       | ["clip"] => Some FileNotFoundError
                       | _ => None
                       end)
              (λ _, None) (inr analysis_sample).

Section LoopRuns.

Variable py_str : pyval → string.
Variable world : nat → newspaper * fabric_env.

(** Iteration [i] found no analysis: a download, parse or nlp exception, or
    an exception inside [analyze_with_fabric]. *)
Definition failed (i : nat) (article : pydict) (s : state) : Prop :=
  is_Some (first_failure (world i).1)
  ∨ ∃ u e s', article !! "url" = Some u
              ∧ analyze_body py_str (world i).2 (extracted (world i).1 u) s = (Raise e, s').

(** Iteration [i] finds the analysis [v]: the article has a URL, newspaper
    raises nowhere, the text can be formatted and encoded, the copy command, the
    clipboard command and the fabric run succeed, the output of fabric
    parses to [v], and the two temporary files have different names. *)
Definition analysed (i : nat) (article : pydict) (v : pyval) : Prop :=
  let np := (world i).1 in
  let env := (world i).2 in
  ∃ u text cmd,
    article !! "url" = Some u
    ∧ np_construct np = None
    ∧ first_failure np = None
    ∧ format_content py_str (extracted np u) = inr text
    ∧ has_surrogate text = false
    ∧ fe_tmp_txt env ≠ fe_tmp_md env
    ∧ fe_run env [if String.eqb (fe_system env) "Darwin" then "pbcopy" else "clip"] = None
    ∧ (∀ s, get_clipboard_command env s = (Ret cmd, s))
    ∧ fe_shell env (join " " cmd +:+ " | fabric -p label_and_rate -o "
                    +:+ dquote +:+ fe_tmp_md env +:+ dquote) = None
    ∧ fe_json env = inr v.

(** The states between the iterations, the results in step with the
    articles. *)
Inductive runs : nat → list pydict → list state → list pyval → Prop :=
| runs_nil i s : runs i [] [s] []
| runs_cons i a arts s s' sts r rs :
    analyse_article py_str (world i).1 (world i).2 a s = (Ret r, s') →
    runs (S i) arts (s' :: sts) rs →
    runs i (a :: arts) (s :: s' :: sts) (r :: rs).

End LoopRuns.

Definition world_sample (i : nat) : newspaper * fabric_env :=
  match i with
  | 0 => (np_sample, env_ok)
  | 1 => (np_unreachable, env_ok)
  | _ => (np_sample, env_timeout)
  end.

(** * The start of the run: [get_api_key], [read_keywords] and [main] *)

(** The calls to [logger.error] of these three functions are kept in a log
    of their own, beside the state of the stages.  Each of them is made
    either before any stage has run or as the last action of the run, so
    the two logs together fix the order of all messages.  The calls to
    [logger.info] and [logger.warning] are left out, as everywhere. *)
Inductive startup_event : Type :=
| Log_api_key_not_found
| Log_error_reading_keywords (e : exn)
| Log_no_keywords_found
| Log_no_articles_found.

Record run_state : Type := mkRun {
  stages : state;
  startup : list startup_event
}.

Definition R (A : Type) : Type := run_state → outcome A * run_state.

Definition run_bind {A B} (m : R A) (k : A → R B) : R B :=
  λ rs, match m rs with
        | (Ret a, rs') => k a rs'
        | (Raise e, rs') => (Raise e, rs')
        | (Exit c, rs') => (Exit c, rs')
        end.

#[global] Instance R_ret : MRet R := λ A a rs, (Ret a, rs).
#[global] Instance R_bind : MBind R := λ A B k m, run_bind m k.

(** A stage run inside [main]. *)
Definition stage {A} (m : M A) : R A :=
  λ rs, ((m (stages rs)).1, mkRun (m (stages rs)).2 (startup rs)).

Definition log_startup (ev : startup_event) : R unit :=
  λ rs, (Ret tt, mkRun (stages rs) (startup rs ++ [ev])).

(** [getenv] is what [os.getenv('NEWSDATA_API_KEY')] gives. *)
Definition get_api_key (getenv : option string) : R string :=
  match getenv with
  | Some (String c s) => mret (String c s)
  | _ => log_startup Log_api_key_not_found;; stage (sys_exit 1)
  end.

(** [[f(x) for x in xs]] when [f] may raise. *)
Fixpoint collect {A B} (f : A → exn + B) (xs : list A) : exn + list B :=
  match xs with
  | [] => inr []
  | x :: xs' => y ← f x; ys ← collect f xs'; inr (y :: ys)
  end.

(** [row[0]] *)
Definition first_cell (r : list string) : exn + string :=
  match r with
  | c :: _ => inr c
  | [] => inl (OtherException "IndexError")
  end.

Section Main.

Variable py_str : pyval → string.
(** [urllib.parse.unquote] and [str.strip]. *)
Variable unquote : string → string.
Variable strip : string → string.

(** [file] is what opening [keywords.csv] and reading it with [csv.reader]
    gives: an exception, or the rows. *)
Definition read_keywords (file : exn + list (list string)) : R (list string) :=
  match rows ← file; collect (λ r, unquote <$> first_cell r) rows with
  | inr keywords => mret keywords
  | inl e => log_startup (Log_error_reading_keywords e);; mret []
  end.

(** What the world answers during one run of [main]; [me_http k] answers
    the search for the keyword at position [k]. *)
Record main_env : Type := mkMainEnv {
  me_getenv : option string;
  me_keywords_file : exn + list (list string);
  me_today : string;
  me_http : nat → string → exn + pyval;
  me_world : nat → newspaper * fabric_env
}.

(** The loop over the keywords. *)
Fixpoint collect_articles (env : main_env) (api_key : string) (k : nat)
    (keywords : list string) (all_articles : list pydict) : M (list pydict) :=
  match keywords with
  | [] => ret all_articles
  | keyword :: rest =>
      articles ← search_news (me_today env) (me_http env k) (strip keyword) api_key
                             "technology" "en";
      collect_articles env api_key (S k) rest
        (match articles with
         | [] => all_articles
         | _ :: _ => all_articles ++ articles
         end)
  end.

Definition main (env : main_env) : R unit :=
  api_key ← get_api_key (me_getenv env);
  keywords ← read_keywords (me_keywords_file env);
  match keywords with
  | [] => log_startup Log_no_keywords_found
  | _ :: _ =>
      all_articles ← stage (collect_articles env api_key 0 keywords []);
      match all_articles with
      | [] => log_startup Log_no_articles_found
      | _ :: _ =>
          stage (save_to_csv all_articles "grcdata.csv");;
          stage (save_urls all_articles "urls.csv");;
          stage (process_articles py_str (me_world env) all_articles)
      end
  end.

End Main.

(** * Further specification-level definitions *)

(** The articles built from the items of a response, when no item raises. *)
Definition articles_of (today keyword : string) (data : pyval) : exn + list pydict :=
  results ← py_getitem data "results";
  items ← py_iter results;
  collect (article_of_item today keyword) items.

(** What [search_news] returns and what it logs. *)
Definition search_result (today : string) (http : string → exn + pyval)
    (keyword api_key category language : string) : list pydict * list log_event :=
  match http (search_url api_key keyword category language) with
  | inl e => ([], [Log_error_fetching_news e])
  | inr data =>
      match py_getitem data "status" with
      | inl e => ([], [Log_error_fetching_news e])
      | inr status =>
          if py_eq_str status "success"
          then match articles_of today keyword data with
               | inr articles => (articles, [])
               | inl e => ([], [Log_error_fetching_news e])
               end
          else match py_get data "results" (PStr "No error message") with
               | inr r => ([], [Log_api_request_failed r])
               | inl e => ([], [Log_error_fetching_news e])
               end
      end
  end.

(** An article as [search_news] stamps it. *)
Definition stamped (today keyword : string) (a : pydict) : Prop :=
  a !! "date" = Some (PStr today) ∧ a !! "keyword" = Some (PStr keyword)
  ∧ has_keys a = true.

Definition response_error : pyval :=
  PDict [("status", PStr "error");
         ("results", PDict [("message", PStr "API key is invalid")])].

(** [m] keeps the relation [P] between the state before and after, and
    leaves the process only with exit code 1. *)
Definition keeps {A} (P : state → state → Prop) (m : M A) : Prop :=
  ∀ st, P st (m st).2 ∧ ∀ c, (m st).1 = Exit c → c = 1%Z.

(** The CSV files are the same. *)
Definition same_files (st st' : state) : Prop := files st' = files st.

(** The CSV files are the same, and so are the temporary files other than
    those named in [mine]. *)
Definition same_but (mine : gset string) (st st' : state) : Prop :=
  files st' = files st ∧ ∀ x, x ∉ mine → (x ∈ temps st' ↔ x ∈ temps st).

Definition env_sample (getenv : option string) (rows : list (list string))
    (items : list pyval) : main_env :=
  mkMainEnv getenv (inr rows) "2024-05-01" (λ _ _, inr (response items)) world_sample.

Section RunArticles.

Variable unquote : string → string.
Variable strip : string → string.

(** The keywords that [read_keywords] returns. *)
Definition keywords_of (file : exn + list (list string)) : list string :=
  match rows ← file; collect (λ r, unquote <$> first_cell r) rows with
  | inr keywords => keywords
  | inl _ => []
  end.

(** The articles found for the keywords from position [k] on, and the
    errors logged on the way. *)
Fixpoint found (env : main_env) (api_key : string) (k : nat) (keywords : list string)
    : list pydict :=
  match keywords with
  | [] => []
  | keyword :: rest =>
      (search_result (me_today env) (me_http env k) (strip keyword) api_key
                     "technology" "en").1
      ++ found env api_key (S k) rest
  end.

Fixpoint found_log (env : main_env) (api_key : string) (k : nat) (keywords : list string)
    : list log_event :=
  match keywords with
  | [] => []
  | keyword :: rest =>
      (search_result (me_today env) (me_http env k) (strip keyword) api_key
                     "technology" "en").2
      ++ found_log env api_key (S k) rest
  end.

(** The articles of a run: those found with the key of the environment for
    the keywords of the file; none without a key. *)
Definition run_articles (env : main_env) : list pydict :=
  match me_getenv env with
  | Some (String c s) =>
      found env (String c s) 0 (keywords_of (me_keywords_file env))
  | _ => []
  end.

End RunArticles.

(** * Properties *)

(** ** The monad *)

Lemma bind_ret {A B} (m : M A) (k : A → M B) (a : A) (st st' : state) :
  m st = (Ret a, st') → (m ≫= k) st = k a st'.
Proof. intros H. unfold mbind, M_bind, bind. by rewrite H. Qed.

Lemma bind_raise {A B} (m : M A) (k : A → M B) (e : exn) (st st' : state) :
  m st = (Raise e, st') → (m ≫= k) st = (Raise e, st').
Proof. intros H. unfold mbind, M_bind, bind. by rewrite H. Qed.

Lemma bind_exit {A B} (m : M A) (k : A → M B) (c : Z) (st st' : state) :
  m st = (Exit c, st') → (m ≫= k) st = (Exit c, st').
Proof. intros H. unfold mbind, M_bind, bind. by rewrite H. Qed.

Lemma try_except_ret {A} (m : M A) (h : exn → M A) (a : A) (st st' : state) :
  m st = (Ret a, st') → try_except m h st = (Ret a, st').
Proof. intros H. unfold try_except. by rewrite H. Qed.

Lemma try_except_raise {A} (m : M A) (h : exn → M A) (e : exn) (st st' : state) :
  m st = (Raise e, st') → try_except m h st = h e st'.
Proof. intros H. unfold try_except. by rewrite H. Qed.

Lemma try_except_exit {A} (m : M A) (h : exn → M A) (c : Z) (st st' : state) :
  m st = (Exit c, st') → try_except m h st = (Exit c, st').
Proof. intros H. unfold try_except. by rewrite H. Qed.

Lemma state_eta (st : state) : mkState (files st) (temps st) (logs st) = st.
Proof. by destruct st. Qed.

(** ** Validity *)

Lemma truthy_get_item (d : pydict) (k : string) :
  truthy (dict_get d k) = true → dict_item d k = inr (dict_get d k).
Proof. unfold dict_get, dict_item. by destruct (d !! k). Qed.

Lemma is_valid_fields (a : pydict) :
  is_valid a = true →
  truthy (dict_get a "date") = true ∧ truthy (dict_get a "keyword") = true ∧
  truthy (dict_get a "headline") = true ∧ truthy (dict_get a "description") = true ∧
  truthy (dict_get a "url") = true.
Proof.
  unfold is_valid, required_keys. simpl.
  rewrite !andb_true_iff. tauto.
Qed.

Lemma is_valid_has_url (a : pydict) : is_valid a = true → has_url a = true.
Proof.
  intros H. pose proof (is_valid_fields a H) as (_ & _ & _ & _ & Hu).
  unfold has_url. unfold is_valid in H. apply andb_true_iff in H as [Hd _].
  by rewrite Hd, Hu.
Qed.

Lemma article_cells_valid (a : pydict) :
  is_valid a = true → article_cells a = inr (cells_of a).
Proof.
  intros H. destruct (is_valid_fields a H) as (Hd & Hk & Hh & Hs & Hu).
  unfold article_cells. rewrite !truthy_get_item by done. done.
Qed.

(** ** Rows that can be written *)

Lemma writable_all (rows : list row) : all_writable rows = true → writable rows = rows.
Proof.
  induction rows as [|r rows IH]; [done|]. simpl.
  rewrite andb_true_iff. intros [Hr Hrows]. by rewrite Hr, IH.
Qed.


Lemma writable_sublist (rows : list row) : writable rows `sublist_of` rows.
Proof.
  induction rows as [|r rows IH]; [done|]. simpl.
  destruct (forallb encodable_cell r); [by constructor|apply sublist_nil_l].
Qed.

Lemma all_writable_cons (r : row) (rows : list row) :
  all_writable (r :: rows) = forallb encodable_cell r && all_writable rows.
Proof. reflexivity. Qed.

Lemma all_writable_cells (P : pydict → bool) (articles : list pydict) :
  forallb article_writable articles = true →
  all_writable (cells_of <$> filter P articles) = true.
Proof.
  induction articles as [|a arts IH]; [done|]. simpl.
  rewrite andb_true_iff. intros [Ha Harts].
  destruct (P a) eqn:HP.
  - rewrite filter_cons_True; [| by apply Is_true_true].
    rewrite fmap_cons, all_writable_cons.
    change (forallb encodable_cell (cells_of a)) with (article_writable a).
    rewrite Ha. by apply IH.
  - rewrite filter_cons_False; [| by apply Is_true_false]. by apply IH.
Qed.

Lemma article_writable_url (a : pydict) :
  article_writable a = true → forallb encodable_cell (url_row a) = true.
Proof.
  unfold article_writable, cells_of, url_row. simpl.
  rewrite !andb_true_iff. intros (_ & _ & _ & _ & Hu & _). by rewrite Hu.
Qed.

Lemma all_writable_urls (P : pydict → bool) (articles : list pydict) :
  forallb article_writable articles = true →
  all_writable (url_row <$> filter P articles) = true.
Proof.
  induction articles as [|a arts IH]; [done|]. simpl.
  rewrite andb_true_iff. intros [Ha Harts].
  destruct (P a) eqn:HP.
  - rewrite filter_cons_True; [| by apply Is_true_true].
    rewrite fmap_cons, all_writable_cons.
    rewrite (article_writable_url a Ha). by apply IH.
  - rewrite filter_cons_False; [| by apply Is_true_false]. by apply IH.
Qed.

(** ** Loops that write one row per selected item *)

Lemma for_each_writer {A} (guard : A → bool) (cellsM : A → exn + row) (cells : A → row)
    (filename : string) :
  (∀ a, guard a = true → cellsM a = inr (cells a)) →
  ∀ (xs : list A) (st : state) (old : list row),
    files st !! filename = Some old →
    for_each xs (λ a, if guard a then r ← lift (cellsM a); writerow filename r else ret tt) st
    = (if all_writable (cells <$> filter guard xs) then Ret tt
       else Raise UnicodeEncodeError,
       mkState (<[filename := old ++ writable (cells <$> filter guard xs)]> (files st))
               (temps st) (logs st)).
Proof.
  intros Hcells xs. induction xs as [|x xs IH]; intros st old Hold.
  - simpl. rewrite app_nil_r, insert_id by done. by rewrite state_eta.
  - simpl. destruct (guard x) eqn:Hg.
    + rewrite filter_cons_True; [| by apply Is_true_true].
      rewrite fmap_cons. cbn [all_writable writable forallb].
      rewrite Hcells by done.
      destruct (forallb encodable_cell (cells x)) eqn:He.
      * erewrite bind_ret; last first.
        { unfold lift. erewrite bind_ret by reflexivity.
          unfold writerow. rewrite He. reflexivity. }
        erewrite IH; last first.
        { simpl. rewrite Hold. simpl. apply lookup_insert_eq. }
        simpl. rewrite insert_insert_eq. by rewrite <- app_assoc.
      * erewrite bind_raise; last first.
        { unfold lift. erewrite bind_ret by reflexivity.
          unfold writerow. rewrite He. reflexivity. }
        simpl. rewrite app_nil_r, insert_id by done. by rewrite state_eta.
    + rewrite filter_cons_False; [| by apply Is_true_false].
      erewrite bind_ret by reflexivity. by apply IH.
Qed.

Lemma for_each_ext {A} (f g : A → M unit) (xs : list A) (st : state) :
  (∀ x st, f x st = g x st) → for_each xs f st = for_each xs g st.
Proof.
  intros Hfg. revert st. induction xs as [|x xs IH]; intros st; [done|].
  simpl. unfold mbind, M_bind, bind. rewrite Hfg.
  destruct (g x st) as [[| |] ?]; auto.
Qed.

(** ** ArticleStore *)

Lemma save_to_csv_run (articles : list pydict) (filename : string) (st : state) :
  save_to_csv articles filename st
  = (Ret tt,
     mkState (<[filename := prior_rows st filename
                            ++ writable (cells_of <$> filter is_valid articles)]> (files st))
             (temps st)
             (logs st ++ write_log (Log_error_writing filename)
                                   (cells_of <$> filter is_valid articles))).
Proof.
  unfold save_to_csv, prior_rows, write_log, try_except.
  erewrite bind_ret by reflexivity.
  destruct (files st !! filename) as [old|] eqn:Hf.
  - rewrite bool_decide_eq_true_2 by eauto.
    erewrite bind_ret by reflexivity.
    erewrite bind_ret by reflexivity.
    erewrite (for_each_writer is_valid article_cells cells_of filename);
      [| intros; by apply article_cells_valid
       | simpl; rewrite Hf; apply lookup_insert_eq].
    simpl. rewrite Hf. simpl. rewrite insert_insert_eq.
    destruct (all_writable _); [by rewrite app_nil_r|done].
  - rewrite bool_decide_eq_false_2 by (intros [? ?]; congruence).
    erewrite bind_ret by reflexivity.
    erewrite bind_ret by reflexivity.
    erewrite (for_each_writer is_valid article_cells cells_of filename);
      [| intros; by apply article_cells_valid
       | simpl; rewrite !lookup_insert_eq; simpl; by rewrite ?lookup_insert_eq].
    simpl. rewrite !insert_insert_eq.
    destruct (all_writable _); [by rewrite app_nil_r|done].
Qed.

Lemma save_urls_run (articles : list pydict) (filename : string) (st : state) :
  save_urls articles filename st
  = (Ret tt,
     mkState (<[filename := writable (url_row <$> filter has_url articles)]> (files st))
             (temps st)
             (logs st ++ write_log (Log_error_writing_urls filename)
                                   (url_row <$> filter has_url articles))).
Proof.
  unfold save_urls, write_log, try_except.
  erewrite bind_ret by reflexivity.
  erewrite (for_each_ext _
    (λ a, if has_url a then r ← lift (u ← dict_item a "url"; inr [u]);
                            writerow filename r
          else ret tt)); last first.
  { intros a s. unfold has_url. destruct (_ && _); [|done].
    unfold mbind, M_bind, bind, lift, ret. by destruct (dict_item a "url"). }
  erewrite (for_each_writer has_url _ url_row filename);
    [| | simpl; apply lookup_insert_eq].
  - simpl. rewrite insert_insert_eq.
    destruct (all_writable _); [by rewrite app_nil_r|done].
  - intros a Ha. unfold has_url in Ha. apply andb_true_iff in Ha as [_ Hu].
    unfold url_row. by rewrite truthy_get_item.
Qed.




(** C9. [save_urls] replaces the destination: whatever it held before, it
    then holds the URL rows written by this call (all of them when they can
    be encoded, else those before the first that cannot), and a second call
    with the same input leaves the files and temporary files of the first
    call unchanged; when every row was written, it leaves the whole state
    of the first call unchanged. *)
Theorem save_urls_idempotent :
  ∀ (articles : list pydict) (filename : string) (st : state),
    ∃ st1 st2,
      save_urls articles filename st = (Ret tt, st1)
      ∧ files st1 !! filename
        = Some (writable (url_row <$> filter has_url articles))
      ∧ save_urls articles filename st1 = (Ret tt, st2)
      ∧ files st2 = files st1 ∧ temps st2 = temps st1
      ∧ (if all_writable (url_row <$> filter has_url articles)
         then st2 = st1
              ∧ files st1 !! filename = Some (url_row <$> filter has_url articles)
         else logs st2 = logs st1 ++ [Log_error_writing_urls filename UnicodeEncodeError]).
Proof.
  intros articles filename st. eexists _, _.
  split; [apply save_urls_run|].
  split; [simpl; apply lookup_insert_eq|].
  split; [apply save_urls_run|].
  simpl. rewrite insert_insert_eq. split; [done|]. split; [done|].
  unfold write_log.
  destruct (all_writable (url_row <$> filter has_url articles)) eqn:Hw; [|done].
  rewrite !app_nil_r, lookup_insert_eq, (writable_all _ Hw). done.
Qed.

(** ** RatedDatasetBuilder *)

Section RatedBuilder.

Variable py_str : pyval → string.

Lemma rated_step_run (p : pydict * pyval) (st : state) :
  rated_step py_str p st
  = match rated_row py_str p with
    | inl e => (Raise e, st)
    | inr None => (Ret tt, st)
    | inr (Some r) =>
        (Ret tt, mkState (<[rated_filename :=
                              default [] (files st !! rated_filename) ++ [r]]> (files st))
                         (temps st) (logs st))
    end.
Proof.
  destruct p as [a an]. unfold rated_step, rated_row, has_url. simpl.
  destruct (dict_truthy a && truthy (dict_get a "url")); [|done].
  destruct (truthy an).
  - destruct (rated_cells py_str a an) as [e|r]; [done|]. simpl.
    unfold mbind, M_bind, bind, lift, ret, writerow.
    by destruct (forallb encodable_cell r).
  - destruct (unrated_cells a) as [e|r]; [done|]. simpl.
    unfold mbind, M_bind, bind, lift, ret, writerow.
    by destruct (forallb encodable_cell r).
Qed.

Lemma for_each_rated (pairs : list (pydict * pyval)) :
  ∀ (st : state) (old : list row),
    files st !! rated_filename = Some old →
    for_each pairs (rated_step py_str) st
    = (match (rated_rows py_str pairs).2 with None => Ret tt | Some e => Raise e end,
       mkState (<[rated_filename := old ++ (rated_rows py_str pairs).1]> (files st))
               (temps st) (logs st)).
Proof.
  induction pairs as [|p ps IH]; intros st old Hold.
  - simpl. rewrite app_nil_r, insert_id by done. by rewrite state_eta.
  - simpl. unfold mbind at 1, M_bind at 1, bind at 1. rewrite rated_step_run.
    destruct (rated_row py_str p) as [e|[r|]]; simpl.
    + rewrite app_nil_r, insert_id by done. by rewrite state_eta.
    + erewrite IH; last first.
      { simpl. rewrite Hold. simpl. apply lookup_insert_eq. }
      simpl. rewrite insert_insert_eq. by rewrite <- app_assoc.
    + by apply IH.
Qed.

Lemma create_rated_csv_run (articles : list pydict) (analyses : list pyval) (st : state) :
  create_rated_csv py_str articles analyses st
  = (Ret tt,
     mkState (<[rated_filename := rated_header :: (rated_rows py_str (zip articles analyses)).1]>
                (files st))
             (temps st)
             (logs st ++ match (rated_rows py_str (zip articles analyses)).2 with
                         | None => []
                         | Some e => [Log_error_updating e]
                         end)).
Proof.
  unfold create_rated_csv, try_except.
  erewrite bind_ret by reflexivity.
  erewrite bind_ret by reflexivity.
  erewrite for_each_rated by (simpl; rewrite !lookup_insert_eq; done).
  simpl. rewrite !insert_insert_eq.
  destruct (rated_rows py_str (zip articles analyses)).2; simpl; [done|].
  by rewrite app_nil_r.
Qed.

End RatedBuilder.

Lemma build_rows py_str (articles : list pydict) (analyses : list pyval) :
  build py_str articles analyses = (rated_rows py_str (zip articles analyses)).1.
Proof.
  unfold build. rewrite create_rated_csv_run. simpl. by rewrite lookup_insert_eq.
Qed.

Lemma builder_log_rows py_str (articles : list pydict) (analyses : list pyval) :
  builder_log py_str articles analyses
  = match (rated_rows py_str (zip articles analyses)).2 with
    | None => []
    | Some e => [Log_error_updating e]
    end.
Proof. unfold builder_log. by rewrite create_rated_csv_run. Qed.

Lemma builder_log_nil py_str (articles : list pydict) (analyses : list pyval) :
  builder_log py_str articles analyses = [] →
  (rated_rows py_str (zip articles analyses)).2 = None.
Proof.
  rewrite builder_log_rows. by destruct (rated_rows py_str (zip articles analyses)).2.
Qed.

Lemma has_keys_cells (a : pydict) : has_keys a = true → article_cells a = inr (cells_of a).
Proof.
  unfold has_keys, required_keys. simpl. rewrite !andb_true_iff.
  intros (Hd & Hk & Hh & Hs & Hu & _).
  apply bool_decide_eq_true_1 in Hd as [d Hd], Hk as [k Hk], Hh as [h Hh],
    Hs as [s Hs], Hu as [u Hu].
  unfold article_cells, cells_of, dict_item, dict_get.
  rewrite Hd, Hk, Hh, Hs, Hu. done.
Qed.

Lemma analysis_cells_ok py_str (an : pyval) :
  truthy an = true → analysis_ok an = true →
  ∃ extra, analysis_cells py_str an = inr extra ∧ length extra = 6.
Proof.
  intros Ht Hok. unfold analysis_ok in Hok. rewrite Ht in Hok. simpl in Hok.
  destruct an as [| | | | | |kvs]; try done.
  apply andb_true_iff in Hok as [H1 H2]. unfold joinable in H1, H2.
  unfold analysis_cells, py_get. simpl.
  destruct (py_join "; " (default (PList []) (assoc kvs "rating-explanation")));
    [done|].
  destruct (py_join "; " (default (PList []) (assoc kvs "quality-score-explanation")));
    [done|].
  simpl. eauto.
Qed.

(** The row of a pair whose cells can be computed and encoded. *)
Lemma rated_row_cells py_str (a : pydict) (an : pyval) (cells extra : row) :
  has_url a = true →
  article_cells a = inr cells →
  (if truthy an then analysis_cells py_str an else inr empty_cells) = inr extra →
  rated_row py_str (a, an)
  = if forallb encodable_cell (cells ++ extra) then inr (Some (cells ++ extra))
    else inl UnicodeEncodeError.
Proof.
  intros Hu Hc He. unfold rated_row. simpl. rewrite Hu.
  destruct (truthy an).
  - unfold rated_cells. rewrite Hc, He. done.
  - unfold unrated_cells. rewrite Hc. by injection He as <-.
Qed.

(** On well-formed input whose cells can be encoded, a pair is skipped
    exactly when the article has no URL; otherwise its row starts with the
    five article cells. *)
Lemma rated_row_ok py_str (a : pydict) (an : pyval) :
  has_keys a = true → analysis_ok an = true →
  article_writable a = true → analysis_writable py_str an = true →
  if has_url a
  then ∃ extra, rated_row py_str (a, an) = inr (Some (cells_of a ++ extra))
                ∧ length extra = 6
                ∧ (truthy an = false → extra = empty_cells)
  else rated_row py_str (a, an) = inr None.
Proof.
  intros Hk Hok Hwa Hwn. destruct (has_url a) eqn:Hu;
    [|by unfold rated_row; simpl; rewrite Hu].
  unfold analysis_writable in Hwn.
  destruct (truthy an) eqn:Ht; simpl in Hwn.
  - destruct (analysis_cells_ok py_str an Ht Hok) as (extra & He & Hl).
    rewrite He in Hwn. exists extra.
    rewrite (rated_row_cells py_str a an (cells_of a) extra);
      [|done|by apply has_keys_cells|by rewrite Ht].
    rewrite forallb_app. fold (article_writable a). rewrite Hwa, Hwn. done.
  - exists empty_cells.
    rewrite (rated_row_cells py_str a an (cells_of a) empty_cells);
      [|done|by apply has_keys_cells|by rewrite Ht].
    rewrite forallb_app. fold (article_writable a). rewrite Hwa. done.
Qed.

Lemma rated_rows_ok py_str (articles : list pydict) :
  ∀ analyses : list pyval,
    length articles = length analyses →
    forallb has_keys articles = true →
    forallb analysis_ok analyses = true →
    forallb article_writable articles = true →
    forallb (analysis_writable py_str) analyses = true →
    (rated_rows py_str (zip articles analyses)).2 = None
    ∧ take 5 <$> (rated_rows py_str (zip articles analyses)).1
      = cells_of <$> filter has_url articles.
Proof.
  induction articles as [|a arts IH]; intros [|an ans] Hlen Hk Hok Hwa Hwn;
    simpl in *; try done.
  apply andb_true_iff in Hk as [Hka Hk], Hok as [Hoka Hok],
    Hwa as [Hwaa Hwa], Hwn as [Hwna Hwn].
  destruct (IH ans) as [IH1 IH2]; [lia|done|done|done|done|].
  pose proof (rated_row_ok py_str a an Hka Hoka Hwaa Hwna) as Hrow.
  destruct (has_url a) eqn:Hu.
  - destruct Hrow as (extra & -> & _ & _).
    rewrite filter_cons_True by (by apply Is_true_true). simpl.
    split; [done|]. unfold fmap in IH2. rewrite IH2. by rewrite take_0.
  - rewrite Hrow. rewrite filter_cons_False by (by apply Is_true_false). done.
Qed.

Lemma length_filter_all {A} (p : A → bool) (xs : list A) :
  length (filter p xs) = length xs ↔ forallb p xs = true.
Proof.
  induction xs as [|x xs IH]; [done|]. simpl.
  pose proof (length_filter p xs) as Hle.
  destruct (p x) eqn:Hp.
  - rewrite filter_cons_True by (by apply Is_true_true). simpl.
    rewrite <- IH. lia.
  - rewrite filter_cons_False by (by apply Is_true_false).
    split; [lia|done].
Qed.

Lemma rated_rows_app py_str (ps qs : list (pydict * pyval)) :
  (rated_rows py_str ps).2 = None →
  rated_rows py_str (ps ++ qs)
  = ((rated_rows py_str ps).1 ++ (rated_rows py_str qs).1, (rated_rows py_str qs).2).
Proof.
  induction ps as [|p ps IH]; simpl.
  - intros _. by destruct (rated_rows py_str qs).
  - destruct (rated_row py_str p) as [e|[r|]]; simpl; [done| |done].
    intros H. by rewrite IH.
Qed.

Lemma filter_valid_has_url (articles : list pydict) :
  filter is_valid (filter has_url articles) = filter is_valid articles.
Proof.
  induction articles as [|a arts IH]; [done|].
  destruct (has_url a) eqn:Hu.
  - rewrite (filter_cons_True has_url) by (by apply Is_true_true).
    destruct (is_valid a) eqn:Hv.
    + rewrite !(filter_cons_True is_valid) by (by apply Is_true_true). by rewrite IH.
    + rewrite !(filter_cons_False is_valid) by (by apply Is_true_false). done.
  - rewrite (filter_cons_False has_url) by (by apply Is_true_false).
    rewrite (filter_cons_False is_valid); [done|].
    apply Is_true_false. destruct (is_valid a) eqn:Hv; [|done].
    apply is_valid_has_url in Hv. congruence.
Qed.

Example build_sample :
  build demo_str [article_ok; article_no_url; article_no_description]
                 [analysis_sample; PNone; PNone]
  = [[PStr "2024-05-01"; PStr "ransomware"; PStr "X"; PStr "Y"; PStr "http://u";
      PStr "S"; PStr "Security"; PStr "A Tier"; PStr "a; b"; PStr "80"; PStr "c"];
     [PStr "2024-05-01"; PStr "ransomware"; PStr "X"; PNone; PStr "http://u";
      PStr EmptyString; PStr EmptyString; PStr EmptyString;
      PStr EmptyString; PStr EmptyString; PStr EmptyString]].
Proof. vm_compute. reflexivity. Qed.

(** C1 fails as stated: an article whose description is missing is invalid,
    yet the builder emits its record, so the number of records equals the
    number of articles although an article is invalid. *)
Lemma rated_builder_keeps_invalid_article :
  is_valid article_no_description = false
  ∧ build demo_str [article_no_description] [PNone]
    = [[PStr "2024-05-01"; PStr "ransomware"; PStr "X"; PNone; PStr "http://u";
        PStr EmptyString; PStr EmptyString; PStr EmptyString;
        PStr EmptyString; PStr EmptyString; PStr EmptyString]]
  ∧ ¬ (∀ articles analyses,
         length articles = length analyses →
         (length (build demo_str articles analyses) = length articles
          ↔ forallb is_valid articles = true)).
Proof.
  split; [vm_compute; reflexivity|]. split; [vm_compute; reflexivity|].
  intros H. specialize (H [article_no_description] [PNone] eq_refl).
  vm_compute in H. destruct H as [H _]. specialize (H eq_refl). discriminate H.
Qed.

(** C1, amended.  For equal-length sequences in which every article carries
    the five keys, every analysis is falsy or a dict with joinable
    explanation entries, and every cell made from them can be encoded, the
    builder returns normally without logging and skips a pair exactly when
    the article has no (truthy) [url]: the records are, in input order, one
    per article with a URL, each starting with the five cells of its
    article.  Hence the number of records is at most the number of
    articles, with equality exactly when every article has a URL. *)
Theorem rated_builder_join :
  ∀ (py_str : pyval → string) (articles : list pydict) (analyses : list pyval)
    (st : state),
    length articles = length analyses →
    forallb has_keys articles = true →
    forallb analysis_ok analyses = true →
    forallb article_writable articles = true →
    forallb (analysis_writable py_str) analyses = true →
    let records := build py_str articles analyses in
    create_rated_csv py_str articles analyses st
    = (Ret tt, mkState (<[rated_filename := rated_header :: records]> (files st))
                       (temps st) (logs st))
    ∧ take 5 <$> records = cells_of <$> filter has_url articles
    ∧ length records ≤ length articles
    ∧ (length records = length articles ↔ forallb has_url articles = true).
Proof.
  intros py_str articles analyses st Hlen Hk Hok Hwa Hwn records.
  destruct (rated_rows_ok py_str articles analyses Hlen Hk Hok Hwa Hwn) as [Hnone Hrows].
  subst records. rewrite build_rows.
  assert (Hl : length (rated_rows py_str (zip articles analyses)).1
               = length (filter has_url articles)).
  { by rewrite <- (length_fmap (take 5)), Hrows, length_fmap. }
  split.
  { rewrite create_rated_csv_run, Hnone. by rewrite app_nil_r. }
  split; [done|]. rewrite Hl. split; [apply length_filter|].
  apply length_filter_all.
Qed.

Lemma rated_builder_join_witness :
  take 5 <$> build demo_str [article_ok; article_no_url; article_no_description]
                            [analysis_sample; PNone; PNone]
  = cells_of <$> filter has_url [article_ok; article_no_url; article_no_description].
Proof.
  assert (Hk : forallb has_keys [article_ok; article_no_url; article_no_description]
               = true) by (vm_compute; reflexivity).
  assert (Hok : forallb analysis_ok [analysis_sample; PNone; PNone] = true)
    by (vm_compute; reflexivity).
  assert (Hwa : forallb article_writable
                  [article_ok; article_no_url; article_no_description] = true)
    by (vm_compute; reflexivity).
  assert (Hwn : forallb (analysis_writable demo_str) [analysis_sample; PNone; PNone]
                = true) by (vm_compute; reflexivity).
  destruct (rated_builder_join demo_str
              [article_ok; article_no_url; article_no_description]
              [analysis_sample; PNone; PNone] st_empty eq_refl Hk Hok Hwa Hwn)
    as (_ & H & _).
  exact H.
Defined.

(** C2 fails as stated: an article without a description is invalid, and is
    left out of the article dataset, but its URL is written to the URL
    list. *)
Lemma save_urls_keeps_invalid_article :
  is_valid article_no_description = false
  ∧ files (save_to_csv [article_no_description] "grcdata.csv" st_empty).2 !! "grcdata.csv"
    = Some [article_header]
  ∧ files (save_urls [article_no_description] "urls.csv" st_empty).2 !! "urls.csv"
    = Some [[PStr "http://u"]]
  ∧ ¬ (∀ articles,
         files (save_urls articles "urls.csv" st_empty).2 !! "urls.csv"
         = Some (url_row <$> filter is_valid articles)).
Proof.
  split; [vm_compute; reflexivity|]. split; [vm_compute; reflexivity|].
  split; [vm_compute; reflexivity|].
  intros H. specialize (H [article_no_description]). vm_compute in H. discriminate H.
Qed.

(** C2, amended.  For articles whose cells can all be encoded: an article
    missing any of the five required fields gets no row in the article
    dataset, [save_to_csv] appends the rows of exactly the valid articles;
    [save_urls] writes, in input order, one row per article whose [url] is
    truthy, whatever its other fields; every valid article is among
    them. *)
Theorem article_store_filters :
  ∀ (articles : list pydict) (filename urls : string) (st : state),
    forallb article_writable articles = true →
    save_to_csv articles filename st
    = (Ret tt, mkState (<[filename := prior_rows st filename
                                      ++ (cells_of <$> filter is_valid articles)]> (files st))
                       (temps st) (logs st))
    ∧ save_urls articles urls st
      = (Ret tt, mkState (<[urls := url_row <$> filter has_url articles]> (files st))
                         (temps st) (logs st))
    ∧ filter is_valid (filter has_url articles) = filter is_valid articles.
Proof.
  intros articles filename urls st Hw.
  pose proof (all_writable_cells is_valid articles Hw) as Hwc.
  pose proof (all_writable_urls has_url articles Hw) as Hwu.
  split.
  { rewrite save_to_csv_run. unfold write_log.
    by rewrite Hwc, (writable_all _ Hwc), app_nil_r. }
  split.
  { rewrite save_urls_run. unfold write_log.
    by rewrite Hwu, (writable_all _ Hwu), app_nil_r. }
  apply filter_valid_has_url.
Qed.

Lemma article_store_filters_witness :
  save_urls [article_ok; article_no_description; article_no_url] "urls.csv" st_empty
  = (Ret tt,
     mkState (<["urls.csv" := url_row <$> filter has_url
                                [article_ok; article_no_description; article_no_url]]> ∅)
             ∅ []).
Proof.
  assert (Hw : forallb article_writable
                 [article_ok; article_no_description; article_no_url] = true)
    by (vm_compute; reflexivity).
  exact (proj1 (proj2 (article_store_filters
                         [article_ok; article_no_description; article_no_url]
                         "grcdata.csv" "urls.csv" st_empty Hw))).
Defined.

(** C3 fails as stated: the first pair holds an analysis that is a JSON
    list, on which [get] raises; the builder logs and stops, and the valid
    article of the second pair, whose analysis is absent, gets no
    record. *)
Lemma absent_analysis_dropped_after_raise :
  is_valid article_ok = true
  ∧ build demo_str [article_ok; article_ok] [PList [PStr "x"]; PNone] = []
  ∧ builder_log demo_str [article_ok; article_ok] [PList [PStr "x"]; PNone]
    = [Log_error_updating AttributeError].
Proof.
  split; [vm_compute; reflexivity|]. split; vm_compute; reflexivity.
Qed.

(** C3, amended.  A valid article whose cells can be encoded, paired with
    an absent analysis, gives the record made of its five cells, all
    truthy, followed by six empty strings; and when the builder, run on
    the pairs before it, logs no error (no earlier pair raises), then, run
    on the whole sequences, it emits that record right after the records
    of the earlier pairs. *)
Theorem absent_analysis_record :
  ∀ (py_str : pyval → string) (a : pydict)
    (pre_articles post_articles : list pydict) (pre_analyses post_analyses : list pyval),
    is_valid a = true →
    article_writable a = true →
    length pre_articles = length pre_analyses →
    builder_log py_str pre_articles pre_analyses = [] →
    build py_str [a] [PNone] = [cells_of a ++ empty_cells]
    ∧ forallb truthy (cells_of a) = true
    ∧ ∃ after,
        build py_str (pre_articles ++ a :: post_articles)
                     (pre_analyses ++ PNone :: post_analyses)
        = build py_str pre_articles pre_analyses
          ++ (cells_of a ++ empty_cells) :: after.
Proof.
  intros py_str a pre_a post_a pre_n post_n Hv Hw Hlen Hpre.
  apply builder_log_nil in Hpre.
  assert (Hrow : rated_row py_str (a, PNone) = inr (Some (cells_of a ++ empty_cells))).
  { rewrite (rated_row_cells py_str a PNone (cells_of a) empty_cells);
      [|by apply is_valid_has_url|by apply article_cells_valid|done].
    rewrite forallb_app. fold (article_writable a). by rewrite Hw. }
  split.
  { rewrite build_rows. simpl. by rewrite Hrow. }
  split.
  { destruct (is_valid_fields a Hv) as (Hd & Hk & Hh & Hs & Hu).
    simpl. by rewrite Hd, Hk, Hh, Hs, Hu. }
  exists (rated_rows py_str (zip post_a post_n)).1.
  rewrite !build_rows.
  rewrite (zip_with_app pair pre_a (a :: post_a) pre_n (PNone :: post_n) Hlen).
  rewrite rated_rows_app by done. simpl. by rewrite Hrow.
Qed.

Lemma absent_analysis_record_witness :
  ∃ after,
    build demo_str ([article_no_url; article_ok] ++ article_ok :: [article_no_description])
                   ([PNone; analysis_sample] ++ PNone :: [PNone])
    = build demo_str [article_no_url; article_ok] [PNone; analysis_sample]
      ++ (cells_of article_ok ++ empty_cells) :: after.
Proof.
  assert (Hv : is_valid article_ok = true) by (vm_compute; reflexivity).
  assert (Hw : article_writable article_ok = true) by (vm_compute; reflexivity).
  assert (Hpre : builder_log demo_str [article_no_url; article_ok]
                                      [PNone; analysis_sample] = [])
    by (vm_compute; reflexivity).
  exact (proj2 (proj2 (absent_analysis_record demo_str article_ok
                         [article_no_url; article_ok] [article_no_description]
                         [PNone; analysis_sample] [PNone] Hv Hw eq_refl Hpre))).
Defined.

(** ** ContentExtractor *)

Lemma is_digit_digit (n : N) : is_digit (digit n) = true.
Proof.
  unfold digit. pose proof (N.mod_upper_bound n 10 ltac:(done)) as Hlt.
  generalize dependent (n mod 10)%N. intros k Hk.
  destruct k as [|p]; [reflexivity|].
  do 4 (destruct p as [p|p|]; try reflexivity; try lia).
Qed.

Lemma append_String (c : ascii) (s t : string) : String c s +:+ t = String c (s +:+ t).
Proof. reflexivity. Qed.

Lemma append_Empty (t : string) : EmptyString +:+ t = t.
Proof. reflexivity. Qed.

Ltac push_append := rewrite ?append_String, ?append_Empty.

Lemma expect_same (c : ascii) (s : string) : expect c (String c s) = Some s.
Proof. unfold expect. by rewrite Ascii.eqb_refl. Qed.

Lemma digits2_pad2 (n : N) (rest : string) : digits 2 (pad2 n +:+ rest) = Some rest.
Proof. unfold pad2. push_append. cbn [digits]. by rewrite !is_digit_digit. Qed.

Lemma digits4_pad4 (n : N) (rest : string) : digits 4 (pad4 n +:+ rest) = Some rest.
Proof. unfold pad4, pad2. push_append. cbn [digits]. by rewrite !is_digit_digit. Qed.

Lemma digits6_pad6 (n : N) (rest : string) : digits 6 (pad6 n +:+ rest) = Some rest.
Proof. unfold pad6, pad4, pad2. push_append. cbn [digits]. by rewrite !is_digit_digit. Qed.

Lemma digits2_pad2_end (n : N) : digits 2 (pad2 n) = Some EmptyString.
Proof. unfold pad2. cbn [digits]. by rewrite !is_digit_digit. Qed.

Lemma iso_offset_format (off : Z) : iso_offset (format_offset off) = true.
Proof.
  unfold format_offset.
  destruct (off <? 0)%Z; push_append; cbn [iso_offset in_turn];
    rewrite digits2_pad2, expect_same, digits2_pad2_end; reflexivity.
Qed.

Lemma iso_fraction_offset (off : Z) :
  iso_fraction (format_offset off) = Some (format_offset off).
Proof. unfold format_offset. destruct (off <? 0)%Z; push_append; reflexivity. Qed.

Lemma iso_offset_utcoffset (off : option Z) :
  iso_offset (match off with None => EmptyString | Some o => format_offset o end) = true.
Proof. destruct off; [apply iso_offset_format|done]. Qed.

(** [isoformat] always produces the extended ISO 8601 format. *)
Lemma isoformat_iso8601 (d : datetime) : is_iso8601 (isoformat d) = true.
Proof.
  unfold is_iso8601, isoformat. cbn [in_turn]. push_append.
  rewrite digits4_pad4, expect_same, digits2_pad2, expect_same, digits2_pad2,
    expect_same, digits2_pad2, expect_same, digits2_pad2, expect_same, digits2_pad2.
  destruct (microsecond d =? 0)%N; push_append.
  - destruct (utcoffset d) as [off|]; [|done].
    rewrite iso_fraction_offset. apply iso_offset_format.
  - cbn [iso_fraction]. rewrite digits6_pad6. apply iso_offset_utcoffset.
Qed.

Example isoformat_naive :
  isoformat (mkDatetime 2024 5 1 9 3 7 0 None) = "2024-05-01T09:03:07".
Proof. vm_compute. reflexivity. Qed.

Example isoformat_aware :
  isoformat (mkDatetime 2024 5 1 9 3 7 123 (Some (-330)%Z))
  = "2024-05-01T09:03:07.000123-05:30".
Proof. vm_compute. reflexivity. Qed.

(** Once the [Article] object is constructed, the extractor returns: the
    content when download, parse and nlp all succeed, and otherwise None
    after logging the URL and the exception. *)
Lemma extract_after_construct (np : newspaper) (url : pyval) (st : state) :
  np_construct np = None →
  extract_article_content np url st
  = match first_failure np with
    | None => (Ret (Some (extracted np url)), st)
    | Some e => (Ret None, mkState (files st) (temps st)
                                   (logs st ++ [Log_failed_to_process url e]))
    end.
Proof.
  intros Hc. unfold extract_article_content, first_failure. rewrite Hc.
  unfold mbind, M_bind, bind, try_except, call, ret, raise, log_error.
  destruct (np_download np), (np_parse np), (np_nlp np); reflexivity.
Qed.

(** An exception of the constructor is outside the [try] and leaves the
    function. *)
Lemma extract_construct_raises (np : newspaper) (url : pyval) (st : state) (e : exn) :
  np_construct np = Some e →
  extract_article_content np url st = (Raise e, st).
Proof.
  intros Hc. unfold extract_article_content. rewrite Hc. reflexivity.
Qed.

Lemma truthy_not_None (v : pyval) : truthy v = true → v ≠ PNone.
Proof. by intros H ->. Qed.

Lemma py_or_not_None (v d : pyval) : d ≠ PNone → py_or v d ≠ PNone.
Proof.
  intros Hd. unfold py_or. destruct (truthy v) eqn:Ht; [|done].
  by apply truthy_not_None.
Qed.

(** C4 fails as stated: when the parse yields no authors, the [authors]
    field is the one-element list holding the sentinel, not the empty
    sequence. *)
Lemma extract_authors_default_not_empty :
  ∃ c, extract_article_content np_nothing (PStr "http://u") st_empty
       = (Ret (Some c), st_empty)
     ∧ c !! "keywords" = Some (PList [])
     ∧ c !! "authors" = Some (PList [PStr "Not Found"])
     ∧ c !! "authors" ≠ Some (PList []).
Proof.
  eexists. split; [reflexivity|].
  split; [vm_compute; reflexivity|]. split; [vm_compute; reflexivity|].
  vm_compute. discriminate.
Qed.

(** C4, amended.  When the constructor, download, parse and nlp all
    succeed, the extractor returns a dict in which [title], [summary] and
    [text] are the parsed value or, when that is falsy, "Not Found";
    [keywords] is the parsed list or the empty list; [authors] is the
    parsed list or the one-element list ["Not Found"]; [publish_date] is
    the ISO 8601 string of the parsed date or "Not Found"; [url] is the
    input; and none of the six parsed fields is None. *)
Theorem extract_fills_defaults :
  ∀ (np : newspaper) (url : pyval) (st : state),
    np_construct np = None → first_failure np = None →
    ∃ c, extract_article_content np url st = (Ret (Some c), st)
       ∧ c !! "title" = Some (if truthy (np_title np) then np_title np
                              else PStr "Not Found")
       ∧ c !! "summary" = Some (if truthy (np_summary np) then np_summary np
                                else PStr "Not Found")
       ∧ c !! "text" = Some (if truthy (np_text np) then np_text np
                             else PStr "Not Found")
       ∧ c !! "keywords" = Some (if truthy (np_keywords np) then np_keywords np
                                 else PList [])
       ∧ c !! "authors" = Some (if truthy (np_authors np) then np_authors np
                                else PList [PStr "Not Found"])
       ∧ c !! "publish_date"
         = Some (match np_publish_date np with
                 | Some d => PStr (isoformat d)
                 | None => PStr "Not Found"
                 end)
       ∧ match np_publish_date np with
         | Some d => is_iso8601 (isoformat d) = true
         | None => True
         end
       ∧ c !! "url" = Some url
       ∧ Forall (λ key, ∃ v, c !! key = Some v ∧ v ≠ PNone)
                ["title"; "keywords"; "authors"; "summary"; "text"; "publish_date"].
Proof.
  intros np url st Hc Hf. exists (extracted np url).
  rewrite extract_after_construct, Hf by done.
  assert (Ht : extracted np url !! "title" = Some (py_or (np_title np) (PStr "Not Found")))
    by reflexivity.
  assert (Hs : extracted np url !! "summary"
               = Some (py_or (np_summary np) (PStr "Not Found"))) by reflexivity.
  assert (Hx : extracted np url !! "text" = Some (py_or (np_text np) (PStr "Not Found")))
    by reflexivity.
  assert (Hk : extracted np url !! "keywords"
               = Some (if truthy (np_keywords np) then np_keywords np else PList []))
    by reflexivity.
  assert (Ha : extracted np url !! "authors"
               = Some (if truthy (np_authors np) then np_authors np
                       else PList [PStr "Not Found"])) by reflexivity.
  assert (Hp : extracted np url !! "publish_date"
               = Some (match np_publish_date np with
                       | Some d => PStr (isoformat d)
                       | None => PStr "Not Found"
                       end)) by reflexivity.
  repeat split; try done.
  - destruct (np_publish_date np); [apply isoformat_iso8601|done].
  - repeat constructor.
    + eexists. split; [exact Ht|]. by apply py_or_not_None.
    + eexists. split; [exact Hk|].
      destruct (truthy (np_keywords np)) eqn:E; [by apply truthy_not_None|done].
    + eexists. split; [exact Ha|].
      destruct (truthy (np_authors np)) eqn:E; [by apply truthy_not_None|done].
    + eexists. split; [exact Hs|]. by apply py_or_not_None.
    + eexists. split; [exact Hx|]. by apply py_or_not_None.
    + eexists. split; [exact Hp|]. by destruct (np_publish_date np).
Qed.

Lemma extract_fills_defaults_witness :
  ∃ c, extract_article_content np_sample (PStr "http://u") st_empty
       = (Ret (Some c), st_empty)
     ∧ c !! "authors" = Some (PList [PStr "Not Found"])
     ∧ c !! "publish_date" = Some (PStr "2024-05-01T09:03:07").
Proof.
  destruct (extract_fills_defaults np_sample (PStr "http://u") st_empty eq_refl eq_refl)
    as (c & H & _ & _ & _ & _ & Ha & Hp & _).
  exists c. split; [exact H|]. split; [exact Ha|exact Hp].
Defined.

Example extract_unreachable :
  extract_article_content np_unreachable (PStr "http://u") st_empty
  = (Ret None,
     mkState ∅ ∅ [Log_failed_to_process (PStr "http://u") (OtherException "ArticleException")]).
Proof. reflexivity. Qed.

(** C6: the [Article] object is constructed before the [try] is entered,
    so an exception of the constructor is neither caught nor logged: it
    leaves [extract_article_content]. *)
Theorem extract_raises_from_constructor :
  extract_article_content np_unparsable (PStr "http://[") st_empty
  = (Raise ValueError, st_empty).
Proof. reflexivity. Qed.

(** ** NewsSearchClient *)

Lemma article_of_item_ok (today keyword : string) (item : pyval) :
  item_ok item = true →
  article_of_item today keyword item = inr (article_from today keyword item).
Proof.
  destruct item as [| | | | | |kvs]; try done. simpl.
  rewrite !andb_true_iff. intros [[Ht Hd] Hl].
  apply bool_decide_eq_true_1 in Ht as [t Ht], Hd as [d Hd], Hl as [l Hl].
  unfold article_of_item, article_from, py_getitem, item_field.
  rewrite Ht, Hd, Hl. reflexivity.
Qed.

Lemma map_each_items (today keyword : string) (items : list pyval) (st : state) :
  forallb item_ok items = true →
  map_each items (λ article, lift (article_of_item today keyword article)) st
  = (Ret (article_from today keyword <$> items), st).
Proof.
  induction items as [|item items IH]; [done|]. simpl.
  rewrite andb_true_iff. intros [Hi His].
  rewrite article_of_item_ok by done.
  unfold mbind at 1, M_bind at 1, bind at 1. simpl.
  erewrite bind_ret by (by apply IH). done.
Qed.

(** An article built from an item is valid only if the item's title,
    description and link are all truthy. *)
Lemma article_from_valid (today keyword : string) (item : pyval) :
  is_valid (article_from today keyword item) = true →
  truthy (item_field item "title") && truthy (item_field item "description")
  && truthy (item_field item "link") = true.
Proof.
  intros H. apply is_valid_fields in H as (_ & _ & Hh & Hd & Hu).
  change (dict_get (article_from today keyword item) "headline")
    with (item_field item "title") in Hh.
  change (dict_get (article_from today keyword item) "description")
    with (item_field item "description") in Hd.
  change (dict_get (article_from today keyword item) "url")
    with (item_field item "link") in Hu.
  by rewrite Hh, Hd, Hu.
Qed.

(** C8 fails as stated: when an item of a successful response lacks the key
    [description], the subscript raises KeyError, the handler logs it and
    [search_news] returns the empty list: neither the malformed item nor
    the complete one before it is returned. *)
Lemma search_news_drops_response_on_missing_key :
  search_news "2024-05-01" (λ _, inr (response [item_full; item_without_description]))
              "ransomware" "KEY" "technology" "en" st_empty
  = (Ret [], mkState ∅ ∅ [Log_error_fetching_news (KeyError "description")]).
Proof. vm_compute. reflexivity. Qed.

(** C8, amended.  For a successful response whose result items all carry
    the keys [title], [description] and [link], whatever their values,
    [search_news] logs nothing and returns one article per item, in order,
    holding the item's values: an item whose title, description or link is
    null or empty is not rejected here, and its article is invalid, so the
    later validity filtering excludes it. *)
Theorem search_news_keeps_malformed_items :
  ∀ (today : string) (http : string → exn + pyval)
    (keyword api_key category language : string)
    (kvs : list (string * pyval)) (items : list pyval) (st : state),
    http (search_url api_key keyword category language) = inr (PDict kvs) →
    assoc kvs "status" = Some (PStr "success") →
    assoc kvs "results" = Some (PList items) →
    forallb item_ok items = true →
    search_news today http keyword api_key category language st
    = (Ret (article_from today keyword <$> items), st)
    ∧ Forall (λ item,
         truthy (item_field item "title") && truthy (item_field item "description")
         && truthy (item_field item "link") = false →
         is_valid (article_from today keyword item) = false) items.
Proof.
  intros today http keyword api_key category language kvs items st Hh Hs Hr Hok.
  split.
  - unfold search_news. apply try_except_ret.
    rewrite Hh. erewrite bind_ret by reflexivity.
    unfold py_getitem. rewrite Hs. erewrite bind_ret by reflexivity.
    change (py_eq_str (PStr "success") "success") with true. cbv iota.
    rewrite Hr. erewrite bind_ret by reflexivity.
    erewrite bind_ret by reflexivity.
    by apply map_each_items.
  - apply Forall_forall. intros item _ Hfalsy.
    destruct (is_valid (article_from today keyword item)) eqn:Hv; [|done].
    apply article_from_valid in Hv. congruence.
Qed.

Lemma search_news_keeps_malformed_items_witness :
  search_news "2024-05-01" (λ _, inr (response [item_full; item_null_description]))
              "ransomware" "KEY" "technology" "en" st_empty
  = (Ret (article_from "2024-05-01" "ransomware" <$> [item_full; item_null_description]),
     st_empty).
Proof.
  exact (proj1 (search_news_keeps_malformed_items
                  "2024-05-01" (λ _, inr (response [item_full; item_null_description]))
                  "ransomware" "KEY" "technology" "en" _
                  [item_full; item_null_description] st_empty
                  eq_refl eq_refl eq_refl eq_refl)).
Defined.

(** ** AnalysisClient *)

Example analyze_ok :
  analyze_with_fabric demo_str env_ok content_sample st_empty
  = (Ret analysis_sample, st_empty).
Proof. vm_compute. reflexivity. Qed.

Example analyze_not_json :
  analyze_with_fabric demo_str env_not_json content_sample st_empty
  = (Ret PNone, mkState ∅ {["/tmp/tmpa.txt"; "/tmp/tmpb.md"]}
                        [Log_error_in_fabric JSONDecodeError]).
Proof. vm_compute. reflexivity. Qed.

Example analyze_linux :
  analyze_with_fabric demo_str env_linux content_sample st_empty
  = (Ret PNone, mkState ∅ {["/tmp/tmpa.txt"]} [Log_error_in_fabric FileNotFoundError]).
Proof. vm_compute. reflexivity. Qed.

(** On the path where nothing raises, both temporary files are removed:
    the state after the call is the state before it. *)
Lemma temp_file_write_run (text : string) (st : state) :
  temp_file_write text st
  = (if has_surrogate text then Raise UnicodeEncodeError else Ret tt, st).
Proof. unfold temp_file_write. by destruct (has_surrogate text). Qed.

(** A text that cannot be encoded stops the analysis at the first write:
    the input file, empty, is left behind. *)
Lemma analyze_unencodable py_str (env : fabric_env) (content : pydict)
    (text : string) (st : state) :
  format_content py_str content = inr text →
  has_surrogate text = true →
  analyze_with_fabric py_str env content st
  = (Ret PNone, mkState (files st) ({[fe_tmp_txt env]} ∪ temps st)
                        (logs st ++ [Log_error_in_fabric UnicodeEncodeError])).
Proof.
  intros Hfmt Henc.
  assert (Hbody : analyze_body py_str env content st
                  = (Raise UnicodeEncodeError,
                     mkState (files st) ({[fe_tmp_txt env]} ∪ temps st) (logs st))).
  2: { unfold analyze_with_fabric. erewrite try_except_raise by exact Hbody.
       reflexivity. }
  unfold analyze_body. rewrite Hfmt.
  erewrite bind_ret by reflexivity.
  erewrite bind_ret by reflexivity.
  erewrite bind_raise; [reflexivity|].
  rewrite temp_file_write_run, Henc. reflexivity.
Qed.


(** When every step succeeds the parsed value is returned, whatever
    temporary files existed before. *)
Lemma analyze_returns_json py_str (env : fabric_env) (content : pydict)
    (text : string) (cmd : list string) (v : pyval) (st : state) :
  fe_tmp_txt env ≠ fe_tmp_md env →
  format_content py_str content = inr text →
  has_surrogate text = false →
  fe_run env [if String.eqb (fe_system env) "Darwin" then "pbcopy" else "clip"] = None →
  (∀ s, get_clipboard_command env s = (Ret cmd, s)) →
  fe_shell env (join " " cmd +:+ " | fabric -p label_and_rate -o "
                +:+ dquote +:+ fe_tmp_md env +:+ dquote) = None →
  fe_json env = inr v →
  analyze_with_fabric py_str env content st
  = (Ret v, mkState (files st)
                    ((({[fe_tmp_md env]} ∪ ({[fe_tmp_txt env]} ∪ temps st))
                      ∖ {[fe_tmp_txt env]}) ∖ {[fe_tmp_md env]})
                    (logs st)).
Proof.
  intros Hne Hfmt Henc Hrun Hcmd Hshell Hjson.
  unfold analyze_with_fabric. apply try_except_ret. unfold analyze_body.
  rewrite Hfmt, Hrun, Hjson.
  erewrite bind_ret by reflexivity.
  erewrite bind_ret by reflexivity.
  erewrite bind_ret by (rewrite temp_file_write_run, Henc; reflexivity).
  erewrite bind_ret; last first.
  { unfold open_r. simpl. rewrite bool_decide_eq_true_2 by set_solver. reflexivity. }
  erewrite bind_ret by reflexivity.
  erewrite bind_ret by reflexivity.
  erewrite bind_ret by apply Hcmd.
  rewrite Hshell.
  erewrite bind_ret by reflexivity.
  erewrite bind_ret; last first.
  { unfold open_r. simpl. rewrite bool_decide_eq_true_2 by set_solver. reflexivity. }
  erewrite bind_ret by reflexivity.
  erewrite bind_ret; last first.
  { unfold unlink. simpl. rewrite bool_decide_eq_true_2 by set_solver. reflexivity. }
  erewrite bind_ret; last first.
  { unfold unlink. simpl. rewrite bool_decide_eq_true_2 by set_solver. reflexivity. }
  reflexivity.
Qed.

(** Whatever exception the fabric run raises (time limit, non-zero exit),
    both temporary files are left behind. *)
Lemma analyze_failed_run_leaves_files py_str (env : fabric_env) (content : pydict)
    (text : string) (cmd : list string) (e : exn) (st : state) :
  format_content py_str content = inr text →
  has_surrogate text = false →
  fe_run env [if String.eqb (fe_system env) "Darwin" then "pbcopy" else "clip"] = None →
  (∀ s, get_clipboard_command env s = (Ret cmd, s)) →
  fe_shell env (join " " cmd +:+ " | fabric -p label_and_rate -o "
                +:+ dquote +:+ fe_tmp_md env +:+ dquote) = Some e →
  analyze_with_fabric py_str env content st
  = (Ret PNone, mkState (files st) ({[fe_tmp_md env]} ∪ ({[fe_tmp_txt env]} ∪ temps st))
                        (logs st ++ [Log_error_in_fabric e])).
Proof.
  intros Hfmt Henc Hrun Hcmd Hshell.
  assert (Hbody : analyze_body py_str env content st
                  = (Raise e, mkState (files st)
                                ({[fe_tmp_md env]} ∪ ({[fe_tmp_txt env]} ∪ temps st))
                                (logs st))).
  2: { unfold analyze_with_fabric. erewrite try_except_raise by exact Hbody.
       reflexivity. }
  unfold analyze_body.
  rewrite Hfmt, Hrun.
  erewrite bind_ret by reflexivity.
  erewrite bind_ret by reflexivity.
  erewrite bind_ret by (rewrite temp_file_write_run, Henc; reflexivity).
  erewrite bind_ret; last first.
  { unfold open_r. simpl. rewrite bool_decide_eq_true_2 by set_solver. reflexivity. }
  erewrite bind_ret by reflexivity.
  erewrite bind_ret by reflexivity.
  erewrite bind_ret by apply Hcmd.
  rewrite Hshell. reflexivity.
Qed.

(** The same when the run succeeds and its output is not JSON. *)
Lemma analyze_bad_json_leaves_files py_str (env : fabric_env) (content : pydict)
    (text : string) (cmd : list string) (e : exn) (st : state) :
  format_content py_str content = inr text →
  has_surrogate text = false →
  fe_run env [if String.eqb (fe_system env) "Darwin" then "pbcopy" else "clip"] = None →
  (∀ s, get_clipboard_command env s = (Ret cmd, s)) →
  fe_shell env (join " " cmd +:+ " | fabric -p label_and_rate -o "
                +:+ dquote +:+ fe_tmp_md env +:+ dquote) = None →
  fe_json env = inl e →
  analyze_with_fabric py_str env content st
  = (Ret PNone, mkState (files st) ({[fe_tmp_md env]} ∪ ({[fe_tmp_txt env]} ∪ temps st))
                        (logs st ++ [Log_error_in_fabric e])).
Proof.
  intros Hfmt Henc Hrun Hcmd Hshell Hjson.
  assert (Hbody : analyze_body py_str env content st
                  = (Raise e, mkState (files st)
                                ({[fe_tmp_md env]} ∪ ({[fe_tmp_txt env]} ∪ temps st))
                                (logs st))).
  2: { unfold analyze_with_fabric. erewrite try_except_raise by exact Hbody.
       reflexivity. }
  unfold analyze_body.
  rewrite Hfmt, Hrun, Hjson.
  erewrite bind_ret by reflexivity.
  erewrite bind_ret by reflexivity.
  erewrite bind_ret by (rewrite temp_file_write_run, Henc; reflexivity).
  erewrite bind_ret; last first.
  { unfold open_r. simpl. rewrite bool_decide_eq_true_2 by set_solver. reflexivity. }
  erewrite bind_ret by reflexivity.
  erewrite bind_ret by reflexivity.
  erewrite bind_ret by apply Hcmd.
  rewrite Hshell.
  erewrite bind_ret by reflexivity.
  erewrite bind_ret; last first.
  { unfold open_r. simpl. rewrite bool_decide_eq_true_2 by set_solver. reflexivity. }
  reflexivity.
Qed.

(** [sys.exit] in [get_clipboard_command] is not an [Exception]: it passes
    the handler, and the files stay as well. *)
Example analyze_unsupported_os :
  analyze_with_fabric demo_str
    (mkFabricEnv "Java" "/tmp/tmpa.txt" "/tmp/tmpb.md" (λ _, None) (λ _, None)
                 (inr analysis_sample))
    content_sample st_empty
  = (Exit 1, mkState ∅ {["/tmp/tmpa.txt"; "/tmp/tmpb.md"]} [Log_unsupported_os "java"]).
Proof. vm_compute. reflexivity. Qed.

(** C5: when fabric exceeds its time limit, [subprocess.run] raises
    TimeoutExpired, the handler logs it and returns None, and the two
    temporary files created by the call are still there: the two
    [os.unlink] calls sit at the end of the [try] block and are not
    reached. *)
Theorem analyze_timeout_leaves_temp_files :
  analyze_with_fabric demo_str env_timeout content_sample st_empty
  = (Ret PNone, mkState ∅ {["/tmp/tmpa.txt"; "/tmp/tmpb.md"]}
                        [Log_error_in_fabric TimeoutExpired]).
Proof. vm_compute. reflexivity. Qed.

(** ** The extraction and analysis loop *)

Section Loop.

Variable py_str : pyval → string.
Variable world : nat → newspaper * fabric_env.

Lemma extracted_truthy (np : newspaper) (url : pyval) : dict_truthy (extracted np url) = true.
Proof.
  unfold dict_truthy. rewrite bool_decide_eq_false_2; [done|].
  intros H. assert (Hl : extracted np url !! "url" = Some url) by reflexivity.
  rewrite H in Hl. by rewrite lookup_empty in Hl.
Qed.

Lemma analyse_article_failed (np : newspaper) (env : fabric_env) (a : pydict)
    (s s' : state) (r : pyval) :
  analyse_article py_str np env a s = (Ret r, s') →
  (is_Some (first_failure np)
   ∨ ∃ u e s2, a !! "url" = Some u
               ∧ analyze_body py_str env (extracted np u) s = (Raise e, s2)) →
  r = PNone.
Proof.
  unfold analyse_article, dict_item. intros Hrun Hfail.
  destruct (a !! "url") as [u|] eqn:Hu; [|done].
  erewrite bind_ret in Hrun by reflexivity.
  destruct (np_construct np) as [e|] eqn:Hc.
  { erewrite bind_raise in Hrun by (by apply extract_construct_raises). done. }
  pose proof (extract_after_construct np u s Hc) as Hex.
  destruct (first_failure np) as [e|] eqn:Hf.
  - erewrite bind_ret in Hrun by exact Hex. by inversion Hrun.
  - erewrite bind_ret in Hrun by exact Hex. cbv beta iota in Hrun.
    rewrite extracted_truthy in Hrun.
    destruct Hfail as [[e He]|(u' & e & s2 & Hu' & Hbody)]; [done|].
    assert (u' = u) as -> by congruence.
    unfold analyze_with_fabric in Hrun.
    erewrite try_except_raise in Hrun by exact Hbody.
    by inversion Hrun.
Qed.

Lemma analyse_article_analysed (i : nat) (a : pydict) (v : pyval) (s : state) :
  analysed py_str world i a v →
  ∃ s', analyse_article py_str (world i).1 (world i).2 a s = (Ret v, s').
Proof.
  intros (u & text & cmd & Hu & Hc & Hf & Hfmt & Henc & Hne & Hrun & Hcmd & Hshell
          & Hjson).
  unfold analyse_article, dict_item. rewrite Hu.
  erewrite bind_ret by reflexivity.
  pose proof (extract_after_construct (world i).1 u s Hc) as Hex.
  rewrite Hf in Hex.
  erewrite bind_ret by exact Hex. cbv beta iota.
  rewrite extracted_truthy.
  eexists. by eapply analyze_returns_json.
Qed.

Lemma analysis_loop_runs (arts : list pydict) :
  ∀ (i : nat) (acc : list pyval) (st st' : state) (rs : list pyval),
    analysis_loop py_str world i arts acc st = (Ret rs, st') →
    ∃ new sts, rs = acc ++ new ∧ runs py_str world i arts (st :: sts) new
               ∧ last (st :: sts) = Some st'.
Proof.
  induction arts as [|a arts IH]; intros i acc st st' rs Hrun.
  - inversion Hrun; subst. exists [], []. rewrite app_nil_r.
    split; [done|]. split; [constructor|done].
  - simpl in Hrun. unfold mbind, M_bind, bind in Hrun.
    destruct (analyse_article py_str (world i).1 (world i).2 a st)
      as [[r|e|c] s1] eqn:Ha; [|done|done].
    apply IH in Hrun as (new & sts & -> & Hruns & Hlast).
    exists (r :: new), (s1 :: sts). rewrite <- app_assoc.
    split; [done|]. split; [by econstructor|done].
Qed.

Lemma runs_analysis_loop (i : nat) (arts : list pydict) (sts : list state)
    (rs : list pyval) :
  runs py_str world i arts sts rs →
  ∀ acc st st', head sts = Some st → last sts = Some st' →
    analysis_loop py_str world i arts acc st = (Ret (acc ++ rs), st').
Proof.
  induction 1 as [i s|i a arts s s' sts r rs Ha Hruns IH]; intros acc st st' Hh Hl.
  - simpl in *. rewrite app_nil_r. inversion Hh; inversion Hl; subst. reflexivity.
  - simpl in Hh. inversion Hh; subst. simpl.
    erewrite bind_ret by exact Ha.
    rewrite (IH (acc ++ [r]) s' st'); [by rewrite <- app_assoc|done|done].
Qed.

Lemma runs_lookup (i : nat) (arts : list pydict) (sts : list state) (rs : list pyval) :
  runs py_str world i arts sts rs →
  length rs = length arts ∧ length sts = S (length arts)
  ∧ ∀ j a, arts !! j = Some a →
      ∃ s s' r, sts !! j = Some s ∧ sts !! S j = Some s' ∧ rs !! j = Some r
                ∧ analyse_article py_str (world (i + j)).1 (world (i + j)).2 a s
                  = (Ret r, s').
Proof.
  induction 1 as [i s|i a arts s s' sts r rs Ha Hruns (IHl & IHs & IH)].
  - split; [done|]. split; [done|]. intros j a Hj. by rewrite lookup_nil in Hj.
  - split; [simpl; lia|]. split; [simpl in *; lia|].
    intros [|j] b Hj.
    + inversion Hj; subst. exists s, s', r. rewrite Nat.add_0_r. done.
    + simpl in Hj. destruct (IH j b Hj) as (t & t' & q & Ht & Ht' & Hq & Hb).
      exists t, t', q. replace (i + S j) with (S i + j) by lia. done.
Qed.

End Loop.

(** C10.  When the loop of [main] completes, [analysis_results] has the
    length of [all_articles], and there are states between the iterations,
    from the state before the loop to the state after it, such that entry
    [i] is what iteration [i] returned for article [i] under the answers of
    that iteration: it is the value parsed from the output of fabric when
    extraction and analysis of article [i] succeeded, and it is None
    whenever download, parse or nlp raised or the body of
    [analyze_with_fabric] raised in that iteration. *)
Theorem analysis_results_paired :
  ∀ (py_str : pyval → string) (world : nat → newspaper * fabric_env)
    (all_articles : list pydict) (st st' : state) (analysis_results : list pyval),
    analysis_loop py_str world 0 all_articles [] st = (Ret analysis_results, st') →
    length analysis_results = length all_articles
    ∧ ∃ sts, length sts = S (length all_articles)
        ∧ sts !! 0 = Some st
        ∧ last sts = Some st'
        ∧ ∀ i a, all_articles !! i = Some a →
            ∃ s s' r, sts !! i = Some s ∧ sts !! S i = Some s'
                      ∧ analysis_results !! i = Some r
                      ∧ analyse_article py_str (world i).1 (world i).2 a s = (Ret r, s')
                      ∧ (∀ v, analysed py_str world i a v → r = v)
                      ∧ (failed py_str world i a s → r = PNone).
Proof.
  intros py_str world arts st st' rs Hrun.
  apply analysis_loop_runs in Hrun as (new & sts & -> & Hruns & Hlast).
  apply runs_lookup in Hruns as (Hl & Hs & Hall). simpl.
  split; [done|]. exists (st :: sts).
  split; [done|]. split; [done|]. split; [done|].
  intros i a Hi. destruct (Hall i a Hi) as (s & s' & r & H1 & H2 & H3 & H4).
  exists s, s', r. repeat split; try done.
  - intros v Hv.
    destruct (analyse_article_analysed py_str world i a v s Hv) as [s2 Hs2].
    change (0 + i) with i in H4. rewrite Hs2 in H4. by inversion H4.
  - intros Hfail. eapply analyse_article_failed; [exact H4|exact Hfail].
Qed.

Lemma analysis_results_paired_witness :
  ∃ r0 r1,
    [analysis_sample; PNone; PNone] !! 0 = Some r0 ∧ r0 = analysis_sample
    ∧ [analysis_sample; PNone; PNone] !! 1 = Some r1 ∧ r1 = PNone.
Proof.
  assert (Hrun : analysis_loop demo_str world_sample 0 [article_ok; article_ok; article_ok]
                   [] st_empty
                 = (Ret [analysis_sample; PNone; PNone],
                    mkState ∅ {["/tmp/tmpa.txt"; "/tmp/tmpb.md"]}
                      [Log_failed_to_process (PStr "http://u")
                         (OtherException "ArticleException");
                       Log_error_in_fabric TimeoutExpired]))
    by (vm_compute; reflexivity).
  assert (Hfmt : ∃ text, format_content demo_str (extracted np_sample (PStr "http://u"))
                         = inr text ∧ has_surrogate text = false)
    by (eexists; split; vm_compute; reflexivity).
  destruct Hfmt as (text & Hfmt & Henc).
  assert (Hok : analysed demo_str world_sample 0 article_ok analysis_sample).
  { exists (PStr "http://u"), text, ["pbpaste"].
    split; [vm_compute; reflexivity|]. split; [reflexivity|]. split; [reflexivity|].
    split; [exact Hfmt|]. split; [exact Henc|]. split; [discriminate|].
    split; [reflexivity|]. split; [intros s; reflexivity|]. split; reflexivity. }
  destruct (analysis_results_paired demo_str world_sample _ _ _ _ Hrun)
    as (_ & sts & _ & _ & _ & Hall).
  destruct (Hall 0 article_ok eq_refl) as (s0 & s0' & r0 & _ & _ & Hr0 & _ & Hv0 & _).
  destruct (Hall 1 article_ok eq_refl) as (s1 & s1' & r1 & _ & _ & Hr1 & _ & _ & Hf1).
  exists r0, r1. split; [exact Hr0|]. split; [exact (Hv0 _ Hok)|].
  split; [exact Hr1|]. apply Hf1. left. eexists. reflexivity.
Defined.


(** * Further properties *)

(** ** NewsSearchClient, on every response *)

Lemma map_each_collect {A B} (f : A → exn + B) (xs : list A) (st : state) :
  map_each xs (λ x, lift (f x)) st
  = match collect f xs with
    | inr ys => (Ret ys, st)
    | inl e => (Raise e, st)
    end.
Proof.
  induction xs as [|x xs IH]; [done|]. simpl.
  unfold mbind at 1, M_bind at 1, bind at 1.
  destruct (f x) as [e|y]; simpl; [done|].
  unfold mbind at 1, M_bind at 1, bind at 1. rewrite IH.
  destruct (collect f xs); done.
Qed.

Lemma articles_of_cases (today keyword : string) (data : pyval) :
  articles_of today keyword data
  = match py_getitem data "results" with
    | inl e => inl e
    | inr results => match py_iter results with
                     | inl e => inl e
                     | inr items => collect (article_of_item today keyword) items
                     end
    end.
Proof. reflexivity. Qed.

Lemma search_news_run (today : string) (http : string → exn + pyval)
    (keyword api_key category language : string) (st : state) :
  search_news today http keyword api_key category language st
  = (Ret (search_result today http keyword api_key category language).1,
     mkState (files st) (temps st)
             (logs st ++ (search_result today http keyword api_key category language).2)).
Proof.
  unfold search_news, search_result, try_except.
  destruct (http (search_url api_key keyword category language)) as [e|data]; [done|].
  erewrite bind_ret by reflexivity.
  destruct (py_getitem data "status") as [e|status]; [done|].
  erewrite bind_ret by reflexivity.
  destruct (py_eq_str status "success").
  - rewrite articles_of_cases.
    destruct (py_getitem data "results") as [e|results]; [done|].
    erewrite bind_ret by reflexivity.
    destruct (py_iter results) as [e|items]; [done|].
    erewrite bind_ret by reflexivity.
    rewrite map_each_collect. simpl.
    destruct (collect (article_of_item today keyword) items); simpl; [done|].
    by rewrite app_nil_r, state_eta.
  - destruct (py_get data "results" (PStr "No error message")) as [e|r]; done.
Qed.

Lemma search_result_log (today : string) (http : string → exn + pyval)
    (keyword api_key category language : string) :
  let r := search_result today http keyword api_key category language in
  length r.2 ≤ 1 ∧ (r.1 ≠ [] → r.2 = []).
Proof.
  unfold search_result.
  destruct (http _) as [e|data]; [by split|].
  destruct (py_getitem data "status") as [e|status]; [by split|].
  destruct (py_eq_str status "success").
  - destruct (articles_of today keyword data); simpl; split; done || lia.
  - destruct (py_get data "results" _); by split.
Qed.

Lemma collect_Forall {A B} (f : A → exn + B) (P : B → Prop) (xs : list A) (ys : list B) :
  (∀ x y, f x = inr y → P y) → collect f xs = inr ys → Forall P ys.
Proof.
  intros Hf. revert ys. induction xs as [|x xs IH]; intros ys; simpl.
  - intros [= <-]. constructor.
  - destruct (f x) as [e|y] eqn:Hx; simpl; [done|].
    destruct (collect f xs) as [e|ys']; simpl; [done|].
    intros [= <-]. constructor; [by eapply Hf|by apply IH].
Qed.

Lemma collect_length {A B} (f : A → exn + B) (xs : list A) (ys : list B) :
  collect f xs = inr ys → length ys = length xs.
Proof.
  revert ys. induction xs as [|x xs IH]; intros ys; simpl.
  - by intros [= <-].
  - destruct (f x) as [e|y]; simpl; [done|].
    destruct (collect f xs) as [e|ys']; simpl; [done|].
    intros [= <-]. simpl. f_equal. by apply IH.
Qed.

Lemma article_of_item_stamped (today keyword : string) (item : pyval) (a : pydict) :
  article_of_item today keyword item = inr a → stamped today keyword a.
Proof.
  unfold article_of_item.
  destruct (py_getitem item "title") as [e|t]; simpl; [done|].
  destruct (py_getitem item "description") as [e|d]; simpl; [done|].
  destruct (py_getitem item "link") as [e|l]; simpl; [done|].
  intros [= <-]. done.
Qed.

Lemma search_result_stamped (today : string) (http : string → exn + pyval)
    (keyword api_key category language : string) :
  Forall (stamped today keyword)
         (search_result today http keyword api_key category language).1.
Proof.
  unfold search_result.
  destruct (http _) as [e|data]; [constructor|].
  destruct (py_getitem data "status") as [e|status]; [constructor|].
  destruct (py_eq_str status "success").
  - destruct (articles_of today keyword data) as [e|arts] eqn:Ha; [constructor|].
    simpl. rewrite articles_of_cases in Ha.
    destruct (py_getitem data "results") as [e|results]; [done|].
    destruct (py_iter results) as [e|items]; [done|].
    eapply collect_Forall; [|exact Ha]. apply article_of_item_stamped.
  - destruct (py_get data "results" _); constructor.
Qed.

(** X1.  [search_news] returns normally on every answer of the service:
    it leaves files and temporary files alone, logs at most one error, and
    logs nothing when it returns at least one article. *)
Theorem search_news_always_returns :
  ∀ (today : string) (http : string → exn + pyval)
    (keyword api_key category language : string) (st : state),
    ∃ articles new,
      search_news today http keyword api_key category language st
      = (Ret articles, mkState (files st) (temps st) (logs st ++ new))
      ∧ length new ≤ 1
      ∧ (articles ≠ [] → new = []).
Proof.
  intros. eexists _, _. split; [apply search_news_run|].
  apply search_result_log.
Qed.

(** X2.  Every article returned by [search_news] carries the five keys,
    its [date] is the date of the run and its [keyword] is the search
    term. *)
Theorem search_news_stamps_articles :
  ∀ (today : string) (http : string → exn + pyval)
    (keyword api_key category language : string) (st : state),
    ∃ articles st',
      search_news today http keyword api_key category language st = (Ret articles, st')
      ∧ Forall (λ a, a !! "date" = Some (PStr today)
                     ∧ a !! "keyword" = Some (PStr keyword)
                     ∧ has_keys a = true) articles.
Proof.
  intros. eexists _, _. split; [apply search_news_run|].
  apply search_result_stamped.
Qed.

(** X3.  When the service answers with a dict whose [status] is not the
    string "success", [search_news] returns no article and logs the
    [results] entry of the answer, or "No error message" when there is
    none. *)
Theorem search_news_reports_failed_status :
  ∀ (today : string) (http : string → exn + pyval)
    (keyword api_key category language : string)
    (kvs : list (string * pyval)) (status : pyval) (st : state),
    http (search_url api_key keyword category language) = inr (PDict kvs) →
    assoc kvs "status" = Some status →
    py_eq_str status "success" = false →
    search_news today http keyword api_key category language st
    = (Ret [],
       mkState (files st) (temps st)
               (logs st ++ [Log_api_request_failed
                              (default (PStr "No error message") (assoc kvs "results"))])).
Proof.
  intros today http keyword api_key category language kvs status st Hh Hs Hne.
  rewrite search_news_run. unfold search_result. rewrite Hh. simpl.
  rewrite Hs, Hne. reflexivity.
Qed.

Lemma search_news_reports_failed_status_witness :
  search_news "2024-05-01" (λ _, inr response_error) "ransomware" "KEY"
              "technology" "en" st_empty
  = (Ret [], mkState ∅ ∅ [Log_api_request_failed
                             (PDict [("message", PStr "API key is invalid")])]).
Proof.
  exact (search_news_reports_failed_status
           "2024-05-01" (λ _, inr response_error) "ransomware" "KEY" "technology" "en"
           _ (PStr "error") st_empty eq_refl eq_refl eq_refl).
Defined.

(** ** What a computation leaves alone *)

Section Keeps.

Variable P : state → state → Prop.
Hypothesis P_refl : ∀ st, P st st.
Hypothesis P_trans : ∀ s1 s2 s3, P s1 s2 → P s2 s3 → P s1 s3.

Lemma keeps_ret {A} (a : A) : keeps P (ret a).
Proof. intros st. split; [apply P_refl|done]. Qed.

Lemma keeps_raise {A} (e : exn) : keeps P (@raise A e).
Proof. intros st. split; [apply P_refl|done]. Qed.

Lemma keeps_sys_exit {A} : keeps P (@sys_exit A 1).
Proof. intros st. split; [apply P_refl|]. simpl. by intros c [= <-]. Qed.

Lemma keeps_lift {A} (r : exn + A) : keeps P (lift r).
Proof. destruct r; [apply keeps_raise|apply keeps_ret]. Qed.

Lemma keeps_call (answer : option exn) : keeps P (call answer).
Proof. destruct answer; [apply keeps_raise|apply keeps_ret]. Qed.

Lemma keeps_bind {A B} (m : M A) (k : A → M B) :
  keeps P m → (∀ a, keeps P (k a)) → keeps P (m ≫= k).
Proof.
  intros Hm Hk st. destruct (Hm st) as [HP Hc].
  unfold mbind, M_bind, bind. destruct (m st) as [[a|e|c] st1] eqn:E; simpl in *.
  - destruct (Hk a st1) as [HP' Hc']. split; [by eapply P_trans|done].
  - split; [exact HP|intros c0 H; discriminate H].
  - split; [exact HP|intros c0 [= <-]; by apply Hc].
Qed.

Lemma keeps_try_except {A} (m : M A) (h : exn → M A) :
  keeps P m → (∀ e, keeps P (h e)) → keeps P (try_except m h).
Proof.
  intros Hm Hh st. destruct (Hm st) as [HP Hc].
  unfold try_except. destruct (m st) as [[a|e|c] st1] eqn:E; simpl in *.
  - split; [exact HP|exact Hc].
  - destruct (Hh e st1) as [HP' Hc']. split; [by eapply P_trans|done].
  - split; [exact HP|exact Hc].
Qed.

Lemma keeps_for_each {A} (xs : list A) (body : A → M unit) :
  (∀ x, keeps P (body x)) → keeps P (for_each xs body).
Proof.
  intros Hb. induction xs as [|x xs IH]; [apply keeps_ret|].
  simpl. apply keeps_bind; [apply Hb|done].
Qed.

End Keeps.

Lemma same_files_refl (st : state) : same_files st st.
Proof. done. Qed.

Lemma same_files_trans (s1 s2 s3 : state) :
  same_files s1 s2 → same_files s2 s3 → same_files s1 s3.
Proof. unfold same_files. congruence. Qed.

Lemma same_but_refl (mine : gset string) (st : state) : same_but mine st st.
Proof. done. Qed.

Lemma same_but_trans (mine : gset string) (s1 s2 s3 : state) :
  same_but mine s1 s2 → same_but mine s2 s3 → same_but mine s1 s3.
Proof.
  intros [Hf1 Ht1] [Hf2 Ht2]. split; [congruence|].
  intros x Hx. rewrite Ht2, Ht1 by done. done.
Qed.

Lemma keeps_log_error (mine : gset string) (ev : log_event) :
  keeps (same_but mine) (log_error ev).
Proof. intros st. split; [by split|done]. Qed.

Lemma keeps_named_temporary_file (mine : gset string) (name : string) :
  name ∈ mine → keeps (same_but mine) (named_temporary_file name).
Proof.
  intros Hin st. split; [|done]. split; [done|]. intros x Hx. simpl.
  rewrite elem_of_union, elem_of_singleton. split; [|tauto].
  intros [->|]; done.
Qed.

Lemma keeps_open_r (mine : gset string) (name : string) :
  keeps (same_but mine) (open_r name).
Proof.
  intros st. unfold open_r. destruct (bool_decide _); split; done.
Qed.

Lemma keeps_unlink (mine : gset string) (name : string) :
  name ∈ mine → keeps (same_but mine) (unlink name).
Proof.
  intros Hin st. unfold unlink. destruct (bool_decide _); [|split; done].
  split; [|done]. split; [done|]. intros x Hx. simpl.
  rewrite elem_of_difference, elem_of_singleton. split; [tauto|].
  intros H. split; [done|]. by intros ->.
Qed.

Lemma keeps_weaken {A} (P Q : state → state → Prop) (m : M A) :
  (∀ s s', P s s' → Q s s') → keeps P m → keeps Q m.
Proof. intros HPQ Hm st. destruct (Hm st). split; [by apply HPQ|done]. Qed.

Ltac frame_step :=
  first
    [ apply keeps_ret; intros ?; apply same_but_refl
    | apply keeps_raise; intros ?; apply same_but_refl
    | apply keeps_sys_exit; intros ?; apply same_but_refl
    | apply keeps_lift; intros ?; apply same_but_refl
    | apply keeps_call; intros ?; apply same_but_refl
    | apply keeps_log_error
    | apply keeps_open_r
    | apply keeps_bind; [intros ? ? ?; apply same_but_trans| |intros ?]
    | apply keeps_try_except; [intros ? ? ?; apply same_but_trans| |intros ?] ].

Lemma keeps_get_clipboard_command (mine : gset string) (env : fabric_env) :
  keeps (same_but mine) (get_clipboard_command env).
Proof.
  unfold get_clipboard_command.
  destruct (String.eqb _ "darwin"); [frame_step|].
  destruct (String.eqb _ "linux").
  - destruct (fe_run env _) as [e|]; [|frame_step].
    destruct e; repeat frame_step.
  - destruct (String.eqb _ "windows"); repeat frame_step.
Qed.

Lemma same_but_difference (mine : gset string) (st st' : state) :
  same_but mine st st' → temps st' ∖ mine = temps st ∖ mine.
Proof.
  intros [_ Ht]. apply set_eq. intros x. rewrite !elem_of_difference.
  split; intros [Hx Hn]; (split; [by apply Ht|done]).
Qed.

(** ** ContentExtractor and AnalysisClient: what they leave alone *)

(** X4.  [extract_article_content] has three outcomes.  It returns a dict
    with exactly the seven keys, holding the input URL, and then changes
    nothing; or, when download, parse or nlp raised, it returns None and
    its only effect is one log entry naming the URL and that exception; or
    it raises, and then the exception is the constructor's and nothing
    was changed.  It never leaves the process. *)
Theorem extract_article_content_outcomes :
  ∀ (np : newspaper) (url : pyval) (st : state),
    match extract_article_content np url st with
    | (Ret (Some c), st') =>
        st' = st
        ∧ dom c = ({["title"; "keywords"; "authors"; "summary"; "text";
                     "publish_date"; "url"]} : gset string)
        ∧ c !! "url" = Some url
    | (Ret None, st') =>
        ∃ e, first_failure np = Some e
             ∧ st' = mkState (files st) (temps st)
                             (logs st ++ [Log_failed_to_process url e])
    | (Raise e, st') => st' = st ∧ np_construct np = Some e
    | (Exit _, _) => False
    end.
Proof.
  intros np url st. destruct (np_construct np) as [e|] eqn:Hc.
  - by rewrite (extract_construct_raises np url st e Hc).
  - rewrite extract_after_construct by done.
    destruct (first_failure np) as [e|]; [by exists e|].
    split; [done|]. split; [|reflexivity].
    unfold extracted. vm_compute. reflexivity.
Qed.

Lemma keeps_extract (mine : gset string) (np : newspaper) (url : pyval) :
  keeps (same_but mine) (extract_article_content np url).
Proof. unfold extract_article_content. repeat frame_step. Qed.

Lemma keeps_analyze_body py_str (env : fabric_env) (content : pydict) :
  keeps (same_but {[fe_tmp_txt env; fe_tmp_md env]}) (analyze_body py_str env content).
Proof.
  unfold analyze_body.
  repeat first
    [ frame_step
    | apply keeps_named_temporary_file; set_solver
    | apply keeps_unlink; set_solver
    | apply keeps_get_clipboard_command ].
Qed.

Lemma keeps_analyze py_str (env : fabric_env) (content : pydict) :
  keeps (same_but {[fe_tmp_txt env; fe_tmp_md env]})
        (analyze_with_fabric py_str env content).
Proof.
  unfold analyze_with_fabric.
  apply keeps_try_except;
    [intros ? ? ?; apply same_but_trans|apply keeps_analyze_body|].
  intros e. repeat frame_step.
Qed.

(** X5.  [analyze_with_fabric] never raises: it returns, or leaves the
    process with exit code 1.  It changes no CSV file, and no temporary
    file other than the two it names itself. *)
Theorem analyze_with_fabric_contained :
  ∀ (py_str : pyval → string) (env : fabric_env) (content : pydict) (st : state),
    let r := analyze_with_fabric py_str env content st in
    match r.1 with
    | Ret _ => True
    | Raise _ => False
    | Exit c => c = 1%Z
    end
    ∧ files r.2 = files st
    ∧ temps r.2 ∖ {[fe_tmp_txt env; fe_tmp_md env]}
      = temps st ∖ {[fe_tmp_txt env; fe_tmp_md env]}.
Proof.
  intros py_str env content st r.
  destruct (keeps_analyze py_str env content st) as [Hsame Hexit].
  fold r in Hsame, Hexit.
  split; [|split; [apply Hsame|by apply same_but_difference]].
  subst r. unfold analyze_with_fabric, try_except in *.
  destruct (analyze_body py_str env content st) as [[v|e|c] st1]; simpl in *;
    [done|done|by apply Hexit].
Qed.

(** ** The loop and the rated dataset *)

Lemma same_but_same_files (mine : gset string) (s s' : state) :
  same_but mine s s' → same_files s s'.
Proof. by intros [? _]. Qed.

Lemma keeps_analyse_article py_str (np : newspaper) (env : fabric_env) (a : pydict) :
  keeps same_files (analyse_article py_str np env a).
Proof.
  unfold analyse_article.
  apply keeps_bind; [apply same_files_trans|apply keeps_lift, same_files_refl|].
  intros url.
  apply keeps_bind; [apply same_files_trans| |].
  { eapply keeps_weaken; [apply (same_but_same_files ∅)|apply keeps_extract]. }
  intros [c|]; [|apply keeps_ret, same_files_refl].
  destruct (dict_truthy c); [|apply keeps_ret, same_files_refl].
  eapply keeps_weaken; [apply same_but_same_files|apply keeps_analyze].
Qed.

Lemma keeps_analysis_loop py_str (world : nat → newspaper * fabric_env)
    (arts : list pydict) :
  ∀ (i : nat) (acc : list pyval), keeps same_files (analysis_loop py_str world i arts acc).
Proof.
  induction arts as [|a arts IH]; intros i acc; simpl.
  - apply keeps_ret, same_files_refl.
  - apply keeps_bind; [apply same_files_trans|apply keeps_analyse_article|].
    intros r. apply IH.
Qed.






(** X7.  The builder pairs by position and stops at the end of the shorter
    list: articles beyond the number of analyses, and analyses beyond the
    number of articles, have no effect on the records. *)
Theorem create_rated_csv_truncates :
  ∀ (py_str : pyval → string) (articles : list pydict) (analyses : list pyval),
    build py_str articles analyses
    = build py_str (take (length analyses) articles) (take (length articles) analyses).
Proof.
  intros. rewrite !build_rows. f_equal. f_equal.
  revert analyses. induction articles as [|a arts IH]; intros [|an ans]; simpl; try done.
  f_equal. apply IH.
Qed.

Lemma process_articles_run py_str (world : nat → newspaper * fabric_env)
    (all_articles : list pydict) (st : state) :
  match process_articles py_str world all_articles st with
  | (Ret _, st') =>
      ∃ analyses st1,
        analysis_loop py_str world 0 all_articles [] st = (Ret analyses, st1)
        ∧ length analyses = length all_articles
        ∧ files st'
          = <[rated_filename := rated_header :: build py_str all_articles analyses]>
              (files st)
  | (_, st') =>
      (∀ analyses st1,
         analysis_loop py_str world 0 all_articles [] st ≠ (Ret analyses, st1))
      ∧ files st' = files st
  end.
Proof.
  unfold process_articles.
  destruct (keeps_analysis_loop py_str world all_articles 0 [] st) as [Hfiles _].
  unfold mbind, M_bind, bind.
  destruct (analysis_loop py_str world 0 all_articles [] st) as [[rs|e|c] st1] eqn:Hloop;
    simpl in Hfiles; [|done|done].
  rewrite create_rated_csv_run. exists rs, st1. split; [done|]. split.
  - apply analysis_loop_runs in Hloop as (new & sts & -> & Hruns & _).
    by apply runs_lookup in Hruns as (Hl & _).
  - simpl. by rewrite build_rows, Hfiles.
Qed.

(** X8.  In [main], the rated dataset is written last and only when the
    loop over the articles completes: then it is replaced by the header
    and the records built from the articles and the list of analyses that
    the loop returned, one per article, and no other CSV file changes;
    when the loop raises or leaves the process, no CSV file changes at
    all. *)
Theorem process_articles_files :
  ∀ (py_str : pyval → string) (world : nat → newspaper * fabric_env)
    (all_articles : list pydict) (st : state),
    match process_articles py_str world all_articles st with
    | (Ret _, st') =>
        ∃ analyses st1,
          analysis_loop py_str world 0 all_articles [] st = (Ret analyses, st1)
          ∧ length analyses = length all_articles
          ∧ files st'
            = <[rated_filename := rated_header :: build py_str all_articles analyses]>
                (files st)
    | (_, st') =>
        (∀ analyses st1,
           analysis_loop py_str world 0 all_articles [] st ≠ (Ret analyses, st1))
        ∧ files st' = files st
    end.
Proof. intros. apply process_articles_run. Qed.

Lemma all_strings_PStr (ss : list string) : all_strings (PStr <$> ss) = Some ss.
Proof.
  induction ss as [|s ss IH]; [done|].
  rewrite fmap_cons. cbn [all_strings]. by rewrite IH.
Qed.

Lemma py_join_strings (sep : string) (ss : list string) :
  py_join sep (PList (PStr <$> ss)) = inr (join sep ss).
Proof. unfold py_join, py_iter. by rewrite all_strings_PStr. Qed.

Lemma py_join_string (sep s : string) : py_join sep (PStr s) = inr (join sep (chars s)).
Proof. unfold py_join, py_iter. by rewrite all_strings_PStr. Qed.

Lemma build_single_cells py_str (a : pydict) (an : pyval) (cells extra : row) :
  has_url a = true →
  article_cells a = inr cells →
  (if truthy an then analysis_cells py_str an else inr empty_cells) = inr extra →
  build py_str [a] [an] = writable [cells ++ extra].
Proof.
  intros Hu Hc He. rewrite build_rows. simpl.
  rewrite (rated_row_cells py_str a an cells extra Hu Hc He).
  by destruct (forallb encodable_cell (cells ++ extra)).
Qed.

Lemma rated_rows_app_raise py_str (ps qs : list (pydict * pyval)) (e : exn) :
  (rated_rows py_str ps).2 = Some e →
  rated_rows py_str (ps ++ qs) = rated_rows py_str ps.
Proof.
  induction ps as [|p ps IH]; simpl; [done|].
  destruct (rated_row py_str p) as [e'|[r|]]; simpl; [done| |done].
  intros H. by rewrite IH.
Qed.

(** X9.  For an article with a URL and a non-empty analysis dict, the six
    analysis cells are: the summary, labels and rating entries as they are,
    the strings of each explanation joined with "; ", and [str()] of the
    quality score; an entry the dict lacks counts as the empty string (as
    the empty list for the explanations).  The record is written when its
    eleven cells can be encoded; otherwise no record is. *)
Theorem rated_record_of_analysis :
  ∀ (py_str : pyval → string) (a : pydict) (kvs : list (string * pyval))
    (rating_explanation quality_explanation : list string),
    has_keys a = true → has_url a = true → kvs ≠ [] →
    default (PList []) (assoc kvs "rating-explanation")
    = PList (PStr <$> rating_explanation) →
    default (PList []) (assoc kvs "quality-score-explanation")
    = PList (PStr <$> quality_explanation) →
    build py_str [a] [PDict kvs]
    = writable
        [cells_of a
         ++ [default (PStr EmptyString) (assoc kvs "one-sentence-summary");
             default (PStr EmptyString) (assoc kvs "labels");
             default (PStr EmptyString) (assoc kvs "rating");
             PStr (join "; " rating_explanation);
             PStr (py_str (default (PStr EmptyString) (assoc kvs "quality-score")));
             PStr (join "; " quality_explanation)]].
Proof.
  intros py_str a kvs res qes Hk Hu Hne Hr Hq.
  apply build_single_cells; [done|by apply has_keys_cells|].
  destruct kvs as [|kv kvs']; [done|]. cbv iota.
  unfold analysis_cells, py_get. simpl. simpl in Hr, Hq.
  rewrite Hr, Hq, !py_join_strings. reflexivity.
Qed.

Lemma rated_record_of_analysis_witness :
  build demo_str [article_ok] [analysis_sample]
  = [[PStr "2024-05-01"; PStr "ransomware"; PStr "X"; PStr "Y"; PStr "http://u";
      PStr "S"; PStr "Security"; PStr "A Tier"; PStr "a; b"; PStr "80"; PStr "c"]].
Proof.
  assert (Hk : has_keys article_ok = true) by (vm_compute; reflexivity).
  assert (Hu : has_url article_ok = true) by (vm_compute; reflexivity).
  assert (Hne : [("one-sentence-summary", PStr "S"); ("labels", PStr "Security");
                 ("rating", PStr "A Tier");
                 ("rating-explanation", PList [PStr "a"; PStr "b"]);
                 ("quality-score", PInt 80);
                 ("quality-score-explanation", PList [PStr "c"])] ≠ [])
    by discriminate.
  exact (rated_record_of_analysis demo_str article_ok _ ["a"; "b"] ["c"]
           Hk Hu Hne eq_refl eq_refl).
Defined.

(** X10.  An explanation that the analysis gives as one string, not as a
    list, is joined character by character: "ab" becomes "a; b".  The
    record is written when its cells can be encoded; otherwise no record
    is. *)
Theorem rated_record_splits_string_explanation :
  ∀ (py_str : pyval → string) (a : pydict) (s : string),
    has_keys a = true → has_url a = true →
    build py_str [a] [PDict [("rating-explanation", PStr s)]]
    = writable
        [cells_of a
         ++ [PStr EmptyString; PStr EmptyString; PStr EmptyString;
             PStr (join "; " (chars s));
             PStr (py_str (PStr EmptyString)); PStr EmptyString]].
Proof.
  intros py_str a s Hk Hu.
  apply build_single_cells; [done|by apply has_keys_cells|].
  unfold analysis_cells, py_get. simpl.
  rewrite py_join_string. reflexivity.
Qed.

Lemma rated_record_splits_string_explanation_witness :
  build demo_str [article_ok] [PDict [("rating-explanation", PStr "ab")]]
  = [[PStr "2024-05-01"; PStr "ransomware"; PStr "X"; PStr "Y"; PStr "http://u";
      PStr EmptyString; PStr EmptyString; PStr EmptyString; PStr "a; b";
      PStr EmptyString; PStr EmptyString]].
Proof.
  assert (Hk : has_keys article_ok = true) by (vm_compute; reflexivity).
  assert (Hu : has_url article_ok = true) by (vm_compute; reflexivity).
  exact (rated_record_splits_string_explanation demo_str article_ok "ab" Hk Hu).
Defined.

(** X11.  An analysis that is truthy and not a dict (a JSON list, string or
    number) has no [get]: at an article with a URL that is paired with
    one, the builder stops.  The dataset then holds the header and the
    records of the pairs before it; that article and all later ones are
    missing.  One error is logged: AttributeError, unless an earlier pair
    had already stopped the builder, in which case the log is that of the
    earlier pairs. *)
Theorem create_rated_csv_stops_at_non_dict :
  ∀ (py_str : pyval → string) (a : pydict) (an : pyval)
    (pre_articles post_articles : list pydict) (pre_analyses post_analyses : list pyval)
    (st : state),
    length pre_articles = length pre_analyses →
    has_keys a = true → has_url a = true → truthy an = true →
    match an with PDict _ => false | _ => true end = true →
    create_rated_csv py_str (pre_articles ++ a :: post_articles)
                     (pre_analyses ++ an :: post_analyses) st
    = (Ret tt,
       mkState (<[rated_filename := rated_header :: build py_str pre_articles pre_analyses]>
                  (files st))
               (temps st)
               (logs st ++ match builder_log py_str pre_articles pre_analyses with
                           | [] => [Log_error_updating AttributeError]
                           | earlier => earlier
                           end)).
Proof.
  intros py_str a an pre_a post_a pre_n post_n st Hlen Hka Hu Ht Hnd.
  assert (Hrow : rated_row py_str (a, an) = inl AttributeError).
  { unfold rated_row. simpl. rewrite Hu, Ht.
    unfold rated_cells. rewrite has_keys_cells by done.
    by destruct an. }
  rewrite create_rated_csv_run, build_rows, builder_log_rows.
  rewrite (zip_with_app pair pre_a (a :: post_a) pre_n (an :: post_n) Hlen).
  destruct (rated_rows py_str (zip pre_a pre_n)).2 as [e|] eqn:Hpre.
  - rewrite (rated_rows_app_raise _ _ _ e Hpre), Hpre. done.
  - rewrite rated_rows_app by done. simpl. rewrite Hrow. simpl.
    by rewrite app_nil_r.
Qed.

Lemma create_rated_csv_stops_at_non_dict_witness :
  create_rated_csv demo_str [article_ok; article_ok; article_ok]
                   [PNone; PList [PStr "not an object"]; analysis_sample] st_empty
  = (Ret tt,
     mkState (<[rated_filename := rated_header :: build demo_str [article_ok] [PNone]]> ∅)
             ∅ [Log_error_updating AttributeError]).
Proof.
  assert (Hk : has_keys article_ok = true) by (vm_compute; reflexivity).
  assert (Hu : has_url article_ok = true) by (vm_compute; reflexivity).
  assert (Hlog : builder_log demo_str [article_ok] [PNone] = [])
    by (vm_compute; reflexivity).
  pose proof (create_rated_csv_stops_at_non_dict demo_str article_ok
                (PList [PStr "not an object"]) [article_ok] [article_ok]
                [PNone] [analysis_sample] st_empty eq_refl Hk Hu eq_refl eq_refl) as H.
  rewrite Hlog in H. exact H.
Defined.

(** ** ArticleStore: rows, order of the two writers *)





(** X14.  When every URL can be encoded, the URL list covers the article
    dataset: [save_urls] writes the URL of every article that has one, and
    the URLs of the rows that [save_to_csv] appends (their fifth cells)
    occur, in the same order, among them. *)
Theorem url_list_covers_dataset :
  ∀ (articles : list pydict) (filename urls : string) (st : state),
    all_writable (url_row <$> filter has_url articles) = true →
    ∃ added new listed,
      save_to_csv articles filename st
      = (Ret tt, mkState (<[filename := prior_rows st filename ++ added]> (files st))
                         (temps st) (logs st ++ new))
      ∧ save_urls articles urls st
        = (Ret tt, mkState (<[urls := listed]> (files st)) (temps st) (logs st))
      ∧ listed = url_row <$> filter has_url articles
      ∧ (drop 4 <$> added) `sublist_of` listed.
Proof.
  intros articles filename urls st Hw.
  exists (writable (cells_of <$> filter is_valid articles)),
         (write_log (Log_error_writing filename) (cells_of <$> filter is_valid articles)),
         (url_row <$> filter has_url articles).
  split; [apply save_to_csv_run|]. split.
  { rewrite save_urls_run. unfold write_log.
    by rewrite Hw, (writable_all _ Hw), app_nil_r. }
  split; [done|].
  etrans; [apply fmap_sublist, writable_sublist|].
  rewrite <- list_fmap_compose.
  change (drop 4 ∘ cells_of) with url_row.
  apply fmap_sublist. rewrite <- filter_valid_has_url. apply sublist_filter.
Qed.

Lemma url_list_covers_dataset_witness :
  save_urls [article_unencodable; article_no_description; article_no_url] "urls.csv"
            st_empty
  = (Ret tt,
     mkState (<["urls.csv" := url_row <$> filter has_url
                                [article_unencodable; article_no_description;
                                 article_no_url]]> ∅) ∅ []).
Proof.
  assert (Hw : all_writable
                 (url_row <$> filter has_url
                    [article_unencodable; article_no_description; article_no_url]) = true)
    by (vm_compute; reflexivity).
  destruct (url_list_covers_dataset
              [article_unencodable; article_no_description; article_no_url]
              "grcdata.csv" "urls.csv" st_empty Hw)
    as (added & new & listed & _ & H & -> & _).
  exact H.
Defined.

(** ** AnalysisClient: the clipboard commands *)

(** X15.  [get_clipboard_command] returns one of three commands and changes
    nothing; or it logs one error and leaves the process with exit code 1
    (xclip missing on Linux, or an unknown system); or it hands on the
    exception of the xclip probe when that is not FileNotFoundError. *)
Theorem get_clipboard_command_outcomes :
  ∀ (env : fabric_env) (st : state),
    match get_clipboard_command env st with
    | (Ret cmd, st') =>
        st' = st
        ∧ cmd ∈ [["pbpaste"]; ["xclip"; "-selection"; "clipboard"; "-o"];
                 ["powershell.exe"; "-command"; "Get-Clipboard"]]
    | (Exit c, st') =>
        c = 1%Z
        ∧ ∃ ev, st' = mkState (files st) (temps st) (logs st ++ [ev])
                ∧ ev ∈ [Log_xclip_not_found; Log_unsupported_os (lower (fe_system env))]
    | (Raise e, st') =>
        st' = st ∧ fe_run env ["xclip"; "-version"] = Some e ∧ e ≠ FileNotFoundError
    end.
Proof.
  intros env st. unfold get_clipboard_command.
  destruct (String.eqb _ "darwin"); [split; [done|set_solver]|].
  destruct (String.eqb _ "linux").
  - destruct (fe_run env _) as [e|] eqn:Hx; [|split; [done|set_solver]].
    destruct e; try (by repeat split).
    split; [done|]. eexists. split; [reflexivity|set_solver].
  - destruct (String.eqb _ "windows"); [split; [done|set_solver]|].
    split; [done|]. eexists. split; [reflexivity|set_solver].
Qed.



(** X17.  Outside macOS the text is copied with [clip].  When that command
    fails, the analysis fails whatever fabric would have answered: the
    result is None, the exception is logged (that of the write, when the
    text cannot be encoded and [clip] is not reached), and the input file
    stays behind. *)
Theorem analyze_fails_without_clip :
  ∀ (py_str : pyval → string) (env : fabric_env) (content : pydict)
    (text : string) (e : exn) (st : state),
    String.eqb (fe_system env) "Darwin" = false →
    format_content py_str content = inr text →
    fe_run env ["clip"] = Some e →
    analyze_with_fabric py_str env content st
    = (Ret PNone,
       mkState (files st) ({[fe_tmp_txt env]} ∪ temps st)
               (logs st ++ [Log_error_in_fabric
                              (if has_surrogate text then UnicodeEncodeError else e)])).
Proof.
  intros py_str env content text e st Hsys Hfmt Hclip.
  destruct (has_surrogate text) eqn:Henc; [by eapply analyze_unencodable|].
  assert (Hbody : analyze_body py_str env content st
                  = (Raise e, mkState (files st) ({[fe_tmp_txt env]} ∪ temps st)
                                      (logs st))).
  2: { unfold analyze_with_fabric. erewrite try_except_raise by exact Hbody.
       reflexivity. }
  unfold analyze_body. rewrite Hfmt, Hsys, Hclip.
  erewrite bind_ret by reflexivity.
  erewrite bind_ret by reflexivity.
  erewrite bind_ret by (rewrite temp_file_write_run, Henc; reflexivity).
  erewrite bind_ret; last first.
  { unfold open_r. simpl. rewrite bool_decide_eq_true_2 by set_solver. reflexivity. }
  reflexivity.
Qed.

Lemma analyze_fails_without_clip_witness :
  analyze_with_fabric demo_str env_linux content_sample st_empty
  = (Ret PNone, mkState ∅ ({["/tmp/tmpa.txt"]} ∪ ∅) [Log_error_in_fabric FileNotFoundError]).
Proof.
  assert (Hfmt : ∃ text, format_content demo_str content_sample = inr text
                         ∧ has_surrogate text = false)
    by (eexists; split; vm_compute; reflexivity).
  destruct Hfmt as (text & Hfmt & Henc).
  pose proof (analyze_fails_without_clip demo_str env_linux content_sample text
                FileNotFoundError st_empty eq_refl Hfmt eq_refl) as H.
  rewrite Henc in H. exact H.
Defined.

(** ** From the extractor to the analysis *)

Lemma py_join_error (sep : string) (v : pyval) (e : exn) :
  py_join sep v = inl e → e = TypeError.
Proof.
  unfold py_join. destruct (py_iter v) as [e'|xs] eqn:Hi.
  - intros [= <-]. destruct v; simpl in Hi; congruence.
  - destruct (all_strings xs); [done|]. by intros [= <-].
Qed.

Lemma format_content_extracted py_str (np : newspaper) (url : pyval) :
  format_content py_str (extracted np url)
  = (aj ← py_join ", " (if truthy (np_authors np) then np_authors np
                        else PList [PStr "Not Found"]);
     kj ← py_join ", " (if truthy (np_keywords np) then np_keywords np else PList []);
     inr ("Title: " +:+ py_str (py_or (np_title np) (PStr "Not Found")) +:+ nl +:+
          "Authors: " +:+ aj +:+ nl +:+
          "Keywords: " +:+ kj +:+ nl +:+
          "Summary: " +:+ py_str (py_or (np_summary np) (PStr "Not Found")) +:+ nl +:+
          "URL: " +:+ py_str url +:+ nl)).
Proof. reflexivity. Qed.

Lemma py_join_defaulted (sep : string) (ss : list string) (dflt : pyval) :
  (∃ d, py_join sep dflt = inr d) →
  ∃ j, py_join sep (if truthy (PList (PStr <$> ss)) then PList (PStr <$> ss) else dflt)
       = inr j.
Proof.
  intros Hd. destruct ss as [|s l]; [done|].
  exists (join sep (s :: l)). rewrite fmap_cons. cbn [truthy].
  rewrite <- fmap_cons. apply py_join_strings.
Qed.

(** X18.  The dict that the extractor returns always has the keys that
    [analyze_with_fabric] reads: formatting it never raises KeyError.  It
    fails only with TypeError (parsed authors or keywords that are not
    sequences of strings), and succeeds whenever the parsed authors and
    keywords are lists of strings, empty or not. *)
Theorem format_content_of_extracted :
  ∀ (py_str : pyval → string) (np : newspaper) (url : pyval)
    (authors keywords : list string),
    match format_content py_str (extracted np url) with
    | inr _ => True
    | inl e => e = TypeError
    end
    ∧ ∃ text,
        format_content py_str
          (extracted (mkNewspaper (np_construct np) (np_download np) (np_parse np)
                        (np_nlp np) (np_title np) (PList (PStr <$> keywords))
                        (PList (PStr <$> authors)) (np_summary np) (np_text np)
                        (np_publish_date np)) url)
        = inr text.
Proof.
  intros py_str np url authors keywords. rewrite !format_content_extracted. split.
  - destruct (py_join ", " (if truthy (np_authors np) then _ else _)) as [e|aj] eqn:Ha;
      simpl; [by eapply py_join_error|].
    destruct (py_join ", " (if truthy (np_keywords np) then _ else _)) as [e|kj] eqn:Hk;
      simpl; [by eapply py_join_error|done].
  - cbn [np_authors np_keywords np_title np_summary].
    destruct (py_join_defaulted ", " authors (PList [PStr "Not Found"])) as [aj ->];
      [by eexists|].
    destruct (py_join_defaulted ", " keywords (PList [])) as [kj ->]; [by eexists|].
    simpl. eauto.
Qed.

(** ** The start of the run *)

Section MainProperties.

Variable py_str : pyval → string.
Variable unquote : string → string.
Variable strip : string → string.

Lemma collect_first_cells (rows : list (list string)) :
  collect (λ r, unquote <$> first_cell r) rows
  = if forallb (λ r, match r with [] => false | _ :: _ => true end) rows
    then inr ((λ r, unquote (default EmptyString (head r))) <$> rows)
    else inl (OtherException "IndexError").
Proof.
  induction rows as [|r rows IH]; [done|].
  cbn [collect forallb]. rewrite IH.
  destruct r as [|c r]; [reflexivity|].
  destruct (forallb _ rows); reflexivity.
Qed.

Lemma read_keywords_run (file : exn + list (list string)) (rs : run_state) :
  ∃ new, read_keywords unquote file rs
         = (Ret (keywords_of unquote file), mkRun (stages rs) (startup rs ++ new)).
Proof.
  unfold read_keywords, keywords_of.
  destruct (rows ← file; collect (λ r, unquote <$> first_cell r) rows) as [e|ks].
  - by eexists [_].
  - exists []. rewrite app_nil_r. by destruct rs.
Qed.

Lemma collect_articles_run (env : main_env) (api_key : string) (keywords : list string) :
  ∀ (k : nat) (acc : list pydict) (st : state),
    collect_articles strip env api_key k keywords acc st
    = (Ret (acc ++ found strip env api_key k keywords),
       mkState (files st) (temps st) (logs st ++ found_log strip env api_key k keywords)).
Proof.
  induction keywords as [|kw kws IH]; intros k acc st; simpl.
  - by rewrite !app_nil_r, state_eta.
  - erewrite bind_ret by apply search_news_run.
    rewrite IH. simpl.
    set (r := search_result (me_today env) (me_http env k) (strip kw) api_key
                            "technology" "en").
    assert (Hacc : match r.1 with [] => acc | _ :: _ => acc ++ r.1 end = acc ++ r.1)
      by (destruct r.1; [by rewrite app_nil_r|done]).
    rewrite Hacc. by rewrite <- !app_assoc.
Qed.

Lemma found_log_length (env : main_env) (api_key : string) (keywords : list string) :
  ∀ k, length (found_log strip env api_key k keywords) ≤ length keywords.
Proof.
  induction keywords as [|kw kws IH]; intros k; simpl; [done|].
  rewrite length_app. specialize (IH (S k)).
  pose proof (search_result_log (me_today env) (me_http env k) (strip kw) api_key
                "technology" "en") as [Hl _].
  simpl in Hl. lia.
Qed.

Lemma found_stamped (env : main_env) (api_key : string) (keywords : list string) :
  ∀ k, Forall (λ a, has_keys a = true) (found strip env api_key k keywords).
Proof.
  induction keywords as [|kw kws IH]; intros k; simpl; [constructor|].
  apply Forall_app. split; [|apply IH].
  eapply Forall_impl; [apply search_result_stamped|]. by intros a (_ & _ & H).
Qed.

Lemma found_results (env : main_env) (api_key : string) (keywords : list string) :
  ∀ k, ∃ results,
    found strip env api_key k keywords = concat results
    ∧ length results = length keywords
    ∧ ∀ j kw, keywords !! j = Some kw →
        results !! j
        = Some (search_result (me_today env) (me_http env (k + j)) (strip kw) api_key
                              "technology" "en").1.
Proof.
  induction keywords as [|kw kws IH]; intros k.
  - exists []. split; [done|]. split; [done|]. intros j kw Hj.
    by rewrite lookup_nil in Hj.
  - destruct (IH (S k)) as (results & Hfound & Hlen & Hres).
    exists ((search_result (me_today env) (me_http env k) (strip kw) api_key
                           "technology" "en").1 :: results).
    split; [simpl; by rewrite Hfound|]. split; [simpl; by rewrite Hlen|].
    intros [|j] kw' Hj.
    + inversion Hj; subst. by rewrite Nat.add_0_r.
    + simpl in Hj. simpl. rewrite (Hres j kw' Hj).
      by replace (k + S j) with (S k + j) by lia.
Qed.

End MainProperties.

(** X19.  [read_keywords] is all or nothing.  When the file cannot be
    read it logs the exception and returns no keyword.  When it is read,
    it returns the decoded first cell of every row, in order, unless some
    row is empty (a blank line): then [row[0]] raises IndexError, which is
    logged, and no keyword at all is returned. *)
Theorem read_keywords_all_or_nothing :
  ∀ (unquote : string → string) (file : exn + list (list string)) (rs : run_state),
    read_keywords unquote file rs
    = match file with
      | inl e =>
          (Ret [], mkRun (stages rs) (startup rs ++ [Log_error_reading_keywords e]))
      | inr rows =>
          if forallb (λ r, match r with [] => false | _ :: _ => true end) rows
          then (Ret ((λ r, unquote (default EmptyString (head r))) <$> rows), rs)
          else (Ret [], mkRun (stages rs)
                          (startup rs
                           ++ [Log_error_reading_keywords (OtherException "IndexError")]))
      end.
Proof.
  intros unquote file rs. unfold read_keywords. destruct file as [e|rows]; [done|].
  change (rows0 ← inr rows; collect (λ r, unquote <$> first_cell r) rows0)
    with (collect (λ r, unquote <$> first_cell r) rows).
  rewrite collect_first_cells. by destruct (forallb _ rows).
Qed.

(** X20.  The loop over the keywords always returns, and every keyword is
    searched: a keyword whose search fails does not stop the others.  The
    result is the articles collected so far followed by what
    [search_news] returns for each keyword in turn (stripped, with the
    key, in category technology and language en).  The loop logs at most
    one error per keyword, changes no file, and every article it adds
    carries the five keys. *)
Theorem collect_articles_never_fails :
  ∀ (strip : string → string) (env : main_env) (api_key : string)
    (keywords : list string) (acc : list pydict) (st : state),
    ∃ results new,
      collect_articles strip env api_key 0 keywords acc st
      = (Ret (acc ++ concat results), mkState (files st) (temps st) (logs st ++ new))
      ∧ length results = length keywords
      ∧ (∀ j kw s, keywords !! j = Some kw →
           ∃ articles s',
             results !! j = Some articles
             ∧ search_news (me_today env) (me_http env j) (strip kw) api_key
                           "technology" "en" s
               = (Ret articles, s'))
      ∧ length new ≤ length keywords
      ∧ Forall (λ a, has_keys a = true) (concat results).
Proof.
  intros strip env api_key keywords acc st.
  destruct (found_results strip env api_key keywords 0) as (results & Hfound & Hlen & Hres).
  exists results, (found_log strip env api_key 0 keywords).
  rewrite <- Hfound.
  split; [apply collect_articles_run|]. split; [done|]. split.
  { intros j kw s Hj. eexists _, _. split; [by apply Hres|]. apply search_news_run. }
  split; [apply found_log_length|apply found_stamped].
Qed.

Lemma get_api_key_run (getenv : option string) (rs : run_state) :
  get_api_key getenv rs
  = match getenv with
    | Some (String c s) => (Ret (String c s), rs)
    | _ => (Exit 1, mkRun (stages rs) (startup rs ++ [Log_api_key_not_found]))
    end.
Proof. destruct getenv as [[|c s]|]; try done; by destruct rs as [[] ?]. Qed.

Lemma run_bind_ret {A B} (m : R A) (k : A → R B) (a : A) (rs rs' : run_state) :
  m rs = (Ret a, rs') → (m ≫= k) rs = k a rs'.
Proof. intros H. unfold mbind, R_bind, run_bind. by rewrite H. Qed.

(** X21.  Without an API key [main] leaves the process with exit code 1,
    and without a keyword it returns, in both cases before any stage has
    run: files, temporary files and the log of the stages are as before,
    and the only message is the one of the start of the run. *)
Theorem main_stops_before_stages :
  ∀ (py_str : pyval → string) (unquote strip : string → string)
    (env : main_env) (rs : run_state),
    match me_getenv env with
    | Some (String _ _) => keywords_of unquote (me_keywords_file env) = []
    | _ => True
    end →
    stages (main py_str unquote strip env rs).2 = stages rs
    ∧ match me_getenv env with
      | Some (String _ _) =>
          (main py_str unquote strip env rs).1 = Ret tt
          ∧ last (startup (main py_str unquote strip env rs).2)
            = Some Log_no_keywords_found
      | _ =>
          main py_str unquote strip env rs
          = (Exit 1, mkRun (stages rs) (startup rs ++ [Log_api_key_not_found]))
      end.
Proof.
  intros py_str unquote strip env rs Hnone. unfold main.
  pose proof (get_api_key_run (me_getenv env) rs) as Hkey.
  destruct (me_getenv env) as [[|c s]|].
  - unfold mbind, R_bind, run_bind. rewrite Hkey. by split.
  - erewrite run_bind_ret by exact Hkey.
    destruct (read_keywords_run unquote (me_keywords_file env) rs) as [new Hread].
    erewrite run_bind_ret by exact Hread. rewrite Hnone. simpl.
    split; [done|]. split; [done|]. by rewrite last_snoc.
  - unfold mbind, R_bind, run_bind. rewrite Hkey. by split.
Qed.

Lemma main_stops_before_stages_witness :
  stages (main demo_str id id (env_sample (Some "KEY") [["ransomware"]; []] [item_full])
               (mkRun st_empty [])).2
  = st_empty.
Proof.
  exact (proj1 (main_stops_before_stages demo_str id id
                  (env_sample (Some "KEY") [["ransomware"]; []] [item_full])
                  (mkRun st_empty []) eq_refl)).
Defined.

Lemma stage_run {A} (m : M A) (rs : run_state) (o : outcome A) (st' : state) :
  m (stages rs) = (o, st') → stage m rs = (o, mkRun st' (startup rs)).
Proof. intros H. unfold stage. by rewrite H. Qed.

(** X22.  When no search returns an article (or there is no key or no
    keyword), [main] writes nothing: CSV files and temporary files are as
    before, and it does not raise. *)
Theorem main_without_articles :
  ∀ (py_str : pyval → string) (unquote strip : string → string)
    (env : main_env) (rs : run_state),
    run_articles unquote strip env = [] →
    files (stages (main py_str unquote strip env rs).2) = files (stages rs)
    ∧ temps (stages (main py_str unquote strip env rs).2) = temps (stages rs)
    ∧ match (main py_str unquote strip env rs).1 with
      | Ret _ => True
      | Raise _ => False
      | Exit c => c = 1%Z
      end.
Proof.
  intros py_str unquote strip env rs Hnone. unfold main, run_articles in *.
  pose proof (get_api_key_run (me_getenv env) rs) as Hkey.
  destruct (me_getenv env) as [[|c s]|].
  - unfold mbind, R_bind, run_bind. by rewrite Hkey.
  - erewrite run_bind_ret by exact Hkey.
    destruct (read_keywords_run unquote (me_keywords_file env) rs) as [new Hread].
    erewrite run_bind_ret by exact Hread.
    destruct (keywords_of unquote (me_keywords_file env)) as [|kw kws]; [done|].
    erewrite run_bind_ret; last first.
    { apply stage_run. apply collect_articles_run. }
    rewrite Hnone. done.
  - unfold mbind, R_bind, run_bind. by rewrite Hkey.
Qed.

Lemma main_without_articles_witness :
  files (stages (main demo_str id id (env_sample (Some "KEY") [["ransomware"]] [])
                      (mkRun st_empty [])).2)
  = ∅.
Proof.
  assert (Hnone : run_articles id id (env_sample (Some "KEY") [["ransomware"]] []) = [])
    by (vm_compute; reflexivity).
  exact (proj1 (main_without_articles demo_str id id
                  (env_sample (Some "KEY") [["ransomware"]] [])
                  (mkRun st_empty []) Hnone)).
Defined.


